(** * esip-gallery: the ERDDAP access and bathymetry notebooks

    A shallow embedding of the two notebooks of the gallery,
    [05_ERDDAP_access.ipynb] and [06_Bathy_Explorer.ipynb].

    The notebooks are straight-line Python that drives external libraries
    (erddapy, pandas, xarray, hvplot).  The embedding keeps the notebook code
    as it is written: cells are computations in a state-and-exception monad,
    the module-level objects the cells mutate ([ooi], [df_list], [hv_list])
    live in one shared state, and every call that leaves the notebook (a
    network request, a parse, a plot) goes through the [External] interface,
    about which nothing is assumed. *)

From Stdlib Require Import String Ascii List ZArith Bool Arith Lia.
From Stdlib Require Import DecimalString Floats.
Import ListNotations.
Open Scope string_scope.
Open Scope list_scope.

(* ================================================================== *)
(** ** Python values, exceptions and sequence indexing *)
(* ================================================================== *)

Module Py.

(** The exceptions the notebooks can meet.  [HTTPError] stands for whatever
    the transport raises, [ParserError] for a payload pandas cannot read. *)
Inductive exn : Type :=
| HTTPError (msg : string)
| ParserError (msg : string)
| KeyError (key : string)
| IndexError
| ValueError (msg : string)
| TypeError (msg : string)
| AttributeError (msg : string).

(** The result of evaluating an expression: a value, or a raised exception. *)
Inductive outcome (A : Type) : Type :=
| Return (a : A)
| Raise (e : exn).
Arguments Return {A} a.
Arguments Raise {A} e.

Definition is_return {A} (o : outcome A) : bool :=
  match o with Return _ => true | Raise _ => false end.

(** [xs[0]] *)
Definition item0 {A} (xs : list A) : outcome A :=
  match xs with
  | [] => Raise IndexError
  | x :: _ => Return x
  end.

(** [xs[-1]] *)
Fixpoint item_last {A} (xs : list A) : outcome A :=
  match xs with
  | [] => Raise IndexError
  | [x] => Return x
  | _ :: r => item_last r
  end.

(** [str(n)] for a length or an integer cell. *)
Definition str_of_nat (n : nat) : string := NilZero.string_of_uint (Nat.to_uint n).
Definition str_of_Z (z : Z) : string := NilZero.string_of_int (Z.to_int z).

(** [pat in s]: substring test. *)
Fixpoint contains (pat s : string) : bool :=
  String.prefix pat s ||
  match s with
  | EmptyString => false
  | String _ r => contains pat r
  end.

(** [template.format(a, b, ...)] for automatically numbered fields: each [{}]
    takes the next argument, [{{] and [}}] are literal braces.  Running out
    of arguments is an IndexError; any other use of a brace (named or
    indexed fields, format specifications) is outside what the notebook
    writes and is rejected. *)
Fixpoint format (template : string) (args : list string) : outcome string :=
  match template with
  | EmptyString => Return EmptyString
  | String "{" (String "}" rest) =>
      match args with
      | [] => Raise IndexError
      | a :: args' =>
          match format rest args' with
          | Return s => Return (a ++ s)%string
          | Raise e => Raise e
          end
      end
  | String "{" (String "{" rest) =>
      match format rest args with
      | Return s => Return (String "{" s)
      | Raise e => Raise e
      end
  | String "}" (String "}" rest) =>
      match format rest args with
      | Return s => Return (String "}" s)
      | Raise e => Raise e
      end
  | String "{" _ => Raise (ValueError "Single '{' encountered in format string")
  | String "}" _ => Raise (ValueError "Single '}' encountered in format string")
  | String c rest =>
      match format rest args with
      | Return s => Return (String c s)
      | Raise e => Raise e
      end
  end.

End Py.
Export Py.

(* ================================================================== *)
(** ** The part of pandas the notebook uses *)
(* ================================================================== *)

Module Pandas.

(** A table cell: text, an integer, or the missing value. *)
Inductive cell : Type :=
| CStr (s : string)
| CInt (z : Z)
| CNaN.

Definition cell_eqb (a b : cell) : bool :=
  match a, b with
  | CStr s, CStr t => String.eqb s t
  | CInt x, CInt y => Z.eqb x y
  | CNaN, CNaN => true
  | _, _ => false
  end.

(** [str(c)]: how a cell is rendered when it is printed or put in a URL. *)
Definition cell_str (c : cell) : string :=
  match c with
  | CStr s => s
  | CInt z => str_of_Z z
  | CNaN => "nan"
  end.

(** A frame: column labels, row labels, and the rows in order. *)
Record DataFrame : Type := mkDataFrame {
  columns : list string;
  index : list nat;
  rows : list (list cell)
}.

(** [len(df)] *)
Definition len (df : DataFrame) : nat := length (rows df).

Fixpoint col_pos (c : string) (cols : list string) : option nat :=
  match cols with
  | [] => None
  | c' :: r => if String.eqb c c' then Some 0
               else option_map S (col_pos c r)
  end.

(** A row read at a column position; a short row reads as missing. *)
Definition at_pos (i : nat) (r : list cell) : cell := nth i r CNaN.

(** [df[c]]: one column, top to bottom. *)
Definition column (c : string) (df : DataFrame) : outcome (list cell) :=
  match col_pos c (columns df) with
  | None => Raise (KeyError c)
  | Some i => Return (map (at_pos i) (rows df))
  end.

Fixpoint col_positions (cs cols : list string) : outcome (list nat) :=
  match cs with
  | [] => Return []
  | c :: r =>
      match col_pos c cols with
      | None => Raise (KeyError c)
      | Some i =>
          match col_positions r cols with
          | Return ps => Return (i :: ps)
          | Raise e => Raise e
          end
      end
  end.

(** [df[[c1, c2, ...]]]: the listed columns in the listed order; every row is
    kept, in place. *)
Definition select_columns (cs : list string) (df : DataFrame) : outcome DataFrame :=
  match col_positions cs (columns df) with
  | Raise e => Raise e
  | Return ps =>
      Return {| columns := cs;
                index := index df;
                rows := map (fun r => map (fun i => at_pos i r) ps) (rows df) |}
  end.

(** [col.str]: the string methods of a column.  pandas has them for a
    column of Python objects, which is how [read_csv] types a column that
    holds some text (and an empty one); a column with no text in it is typed
    as numbers, integers or floating point with NaN for the missing values,
    and is refused. *)
Definition str_accessor (col : list cell) : outcome (list cell) :=
  match col with
  | [] => Return []
  | _ =>
      if existsb (fun c => match c with CStr _ => true | _ => false end) col
      then Return col
      else Raise (AttributeError "Can only use .str accessor with string values!")
  end.

(** [.contains(pat)] on the string methods of a column: in a column of
    objects, missing wherever the cell is not text. *)
Definition str_contains (pat : string) (col : list cell) : list (option bool) :=
  map (fun c => match c with
                | CStr s => Some (contains pat s)
                | _ => None
                end) col.

(** [col.isin(values)] *)
Definition isin (col values : list cell) : list (option bool) :=
  map (fun c => Some (existsb (cell_eqb c) values)) col.

Fixpoint all_bool (mask : list (option bool)) : option (list bool) :=
  match mask with
  | [] => Some []
  | None :: _ => None
  | Some b :: r => option_map (cons b) (all_bool r)
  end.

Fixpoint keep {A} (mask : list bool) (xs : list A) : list A :=
  match mask, xs with
  | b :: m, x :: r => if b then x :: keep m r else keep m r
  | _, _ => []
  end.

(** [df[mask]]: the rows whose mask entry is true, with their labels; a mask
    with a missing entry cannot be used. *)
Definition mask_rows (mask : list (option bool)) (df : DataFrame) : outcome DataFrame :=
  match all_bool mask with
  | None => Raise (ValueError "Cannot mask with non-boolean array containing NA / NaN values")
  | Some bs =>
      Return {| columns := columns df;
                index := keep bs (index df);
                rows := keep bs (rows df) |}
  end.

(** [df.reset_index()]: the old row labels become the first column and the
    rows are numbered afresh. *)
Definition reset_index (df : DataFrame) : DataFrame :=
  {| columns := (if existsb (String.eqb "index") (columns df)
                 then "level_0" else "index") :: columns df;
     index := seq 0 (len df);
     rows := map (fun ir => CInt (Z.of_nat (fst ir)) :: snd ir)
                 (combine (index df) (rows df)) |}.

(** [col.values] as the loop variable is later used: through [str]. *)
Definition values (col : list cell) : list string := map cell_str col.

End Pandas.
Export Pandas.

(* ================================================================== *)
(** ** Notebook 05: ERDDAP access *)
(* ================================================================== *)

Module Erddap.

(** A keyword argument of [get_search_url]. *)
Inductive arg : Type :=
| AStr (s : string)
| AInt (z : Z).

(** The erddapy client object, with the attributes the notebook reads and
    writes.  [ERDDAP(server=..., protocol=...)] leaves the request attributes
    unset. *)
Record ERDDAP : Type := mkERDDAP {
  server : string;
  protocol : string;
  dataset_id : option string;
  variables : option (list string);
  constraints : option (list (string * string));
  response : string
}.

Definition new_ERDDAP (server protocol : string) : ERDDAP :=
  {| server := server; protocol := protocol; dataset_id := None;
     variables := None; constraints := None; response := "html" |}.

Definition with_dataset_id (id : string) (e : ERDDAP) : ERDDAP :=
  {| server := server e; protocol := protocol e; dataset_id := Some id;
     variables := variables e; constraints := constraints e;
     response := response e |}.

Definition with_variables (vs : list string) (e : ERDDAP) : ERDDAP :=
  {| server := server e; protocol := protocol e; dataset_id := dataset_id e;
     variables := Some vs; constraints := constraints e;
     response := response e |}.

Definition with_constraints (cs : list (string * string)) (e : ERDDAP) : ERDDAP :=
  {| server := server e; protocol := protocol e; dataset_id := dataset_id e;
     variables := variables e; constraints := Some cs;
     response := response e |}.

Definition with_response (r : string) (e : ERDDAP) : ERDDAP :=
  {| server := server e; protocol := protocol e; dataset_id := dataset_id e;
     variables := variables e; constraints := constraints e;
     response := r |}.

(** What the notebook does that is visible from outside, in the order it
    happens: a URL opened, the metadata of a dataset asked of the client, a
    series downloaded with the client as it is configured at that moment, a
    line printed. *)
Inductive Event : Type :=
| EvUrlopen (url : string)
| EvInfo (e : ERDDAP) (dataset_id standard_name : string)
| EvData (e : ERDDAP)
| EvPrint (line : string).

(** The calls of the per-dataset loop (metadata and data). *)
Definition is_fetch (ev : Event) : bool :=
  match ev with EvInfo _ _ _ | EvData _ => true | _ => false end.

(** The libraries and the remote services behind them.  A call that may go
    over the network is given the history so far: the answer of a remote
    service may change from one request to the next, it may fail, and a
    library may answer from what it has read before. *)
Class External : Type := {
  Body : Type;
  Dataset : Type;
  DataArray : Type;
  Plot : Type;
  (** [e.get_search_url(response=..., **kw)] *)
  get_search_url : ERDDAP -> string -> list (string * arg) -> string;
  (** [e.get_download_url()] *)
  get_download_url : ERDDAP -> string;
  (** [urlopen(url)] *)
  urlopen : list Event -> string -> outcome Body;
  (** [pd.read_csv(body, skiprows=...)] *)
  read_csv : Body -> list nat -> outcome DataFrame;
  (** [e.get_var_by_attr(dataset_id=..., standard_name=...)] *)
  get_var_by_attr : list Event -> ERDDAP -> string -> string -> outcome (list string);
  (** [e.to_xarray(decode_times=True)] *)
  to_xarray : list Event -> ERDDAP -> outcome Dataset;
  (** [ds[name]] *)
  ds_getitem : Dataset -> string -> outcome DataArray;
  (** [da.hvplot(label=...)] *)
  hvplot : DataArray -> string -> outcome Plot
}.

Section Monad.
Context {X : External}.

(** The objects the cells share and mutate. *)
Record State : Type := mkState {
  history : list Event;
  client : ERDDAP;
  df_list : list Dataset;
  hv_list : list Plot
}.

Definition initial (e : ERDDAP) : State :=
  {| history := []; client := e; df_list := []; hv_list := [] |}.

(** A cell fragment: it runs on the shared state and either returns or
    raises; what it changed before raising stays changed. *)
Definition M (A : Type) : Type := State -> outcome A * State.

Definition ret {A} (a : A) : M A := fun s => (Return a, s).

Definition bind {A B} (m : M A) (k : A -> M B) : M B :=
  fun s => match m s with
           | (Return a, s') => k a s'
           | (Raise e, s') => (Raise e, s')
           end.

Definition lift {A} (o : outcome A) : M A := fun s => (o, s).

(** [try: body / except: pass] *)
Definition try_pass (body : M unit) : M unit :=
  fun s => match body s with
           | (Raise _, s') => (Return tt, s')
           | r => r
           end.

Definition log (ev : Event) (s : State) : State :=
  {| history := history s ++ [ev]; client := client s;
     df_list := df_list s; hv_list := hv_list s |}.

Definition set_client (f : ERDDAP -> ERDDAP) : M unit :=
  fun s => (Return tt,
            {| history := history s; client := f (client s);
               df_list := df_list s; hv_list := hv_list s |}).

Definition get_client : M ERDDAP := fun s => (Return (client s), s).

Definition print (line : string) : M unit :=
  fun s => (Return tt, log (EvPrint line) s).

Definition call_urlopen (url : string) : M Body :=
  fun s => (urlopen (history s) url, log (EvUrlopen url) s).

Definition call_get_var_by_attr (id standard_name : string) : M (list string) :=
  fun s => (get_var_by_attr (history s) (client s) id standard_name,
            log (EvInfo (client s) id standard_name) s).

Definition call_to_xarray : M Dataset :=
  fun s => (to_xarray (history s) (client s), log (EvData (client s)) s).

Definition new_lists : M unit :=
  fun s => (Return tt,
            {| history := history s; client := client s;
               df_list := []; hv_list := [] |}).

Definition df_list_append (ds : Dataset) : M unit :=
  fun s => (Return tt,
            {| history := history s; client := client s;
               df_list := df_list s ++ [ds]; hv_list := hv_list s |}).

Definition hv_list_append (p : Plot) : M unit :=
  fun s => (Return tt,
            {| history := history s; client := client s;
               df_list := df_list s; hv_list := hv_list s ++ [p] |}).

End Monad.

Declare Scope nb_scope.
Delimit Scope nb_scope with nb.
Notation "x <- m ;; k" := (bind m (fun x => k))
  (at level 61, m at next level, right associativity) : nb_scope.
Notation "m ;; k" := (bind m (fun _ => k))
  (at level 61, right associativity) : nb_scope.
Open Scope nb_scope.

Section Cells.
Context {X : External}.

(** [for x in xs: body] *)
Fixpoint for_each {A} (xs : list A) (body : A -> M unit) : M unit :=
  match xs with
  | [] => ret tt
  | x :: r => body x ;; for_each r body
  end.

(** *** Cell: search for everything

    [df = pd.read_csv(urlopen(ooi.get_search_url(response='csv', search_for='all')))],
    then [len(df)]. *)
Definition count_all : M nat :=
  e <- get_client ;;
  body <- call_urlopen (get_search_url e "csv" [("search_for", AStr "all")]) ;;
  df <- lift (read_csv body []) ;;
  ret (len df).

(** *** Cell: search the catalog

<<
search_url = ooi.get_search_url(response='csv', **kw)
search_df = pd.read_csv(urlopen(search_url))
search_df = search_df[['Institution', 'Dataset ID','tabledap']]
>> *)
Definition search (kw : list (string * arg)) : M DataFrame :=
  e <- get_client ;;
  let search_url := get_search_url e "csv" kw in
  body <- call_urlopen search_url ;;
  df <- lift (read_csv body []) ;;
  lift (select_columns ["Institution"; "Dataset ID"; "tabledap"] df).

(** *** Cell: the variable that carries a standard name

    [e.variables = ['time', e.get_var_by_attr(dataset_id=..., standard_name=...)[0]]]:
    the right-hand side is evaluated, index 0 taken, and only then is the
    attribute assigned. *)
Definition resolve_variables (id standard_name : string) : M unit :=
  vs <- call_get_var_by_attr id standard_name ;;
  v <- lift (item0 vs) ;;
  set_client (with_variables ["time"; v]).

(** [e.variables[-1]] *)
Definition variables_last : M string :=
  e <- get_client ;;
  match variables e with
  | None => lift (Raise (TypeError "'NoneType' object is not subscriptable"))
  | Some vs => lift (item_last vs)
  end.

(** *** Cell: read one dataset by hand

<<
ooi.dataset_id = dataset_id
ooi.constraints = {'time>=': min_time,'time<=': max_time}
ooi.response='csv'
ooi.variables = [ 'time', ooi.get_var_by_attr(dataset_id=dataset_id, standard_name=standard_name)[0]]
print(ooi.get_download_url())
ds = ooi.to_xarray(decode_times=True)
>> *)
Definition read_one (id standard_name min_time max_time : string) : M Dataset :=
  set_client (with_dataset_id id) ;;
  set_client (with_constraints [("time>=", min_time); ("time<=", max_time)]) ;;
  set_client (with_response "csv") ;;
  resolve_variables id standard_name ;;
  e <- get_client ;;
  print (get_download_url e) ;;
  call_to_xarray.

(** *** Cell: keep the CTDBP datasets

<<
ctdbp = search_df[search_df['Dataset ID'].str.contains("ctdbp")].reset_index()
print(len(ctdbp))
>> *)
Definition select_ctdbp (search_df : DataFrame) : M DataFrame :=
  col <- lift (column "Dataset ID" search_df) ;;
  strs <- lift (str_accessor col) ;;
  df <- lift (mask_rows (str_contains "ctdbp" strs) search_df) ;;
  let ctdbp := reset_index df in
  print (str_of_nat (len ctdbp)) ;;
  ret ctdbp.

(** *** Cell: alllonlat

<<
def alllonlat(e, cdm_data_type, min_time, max_time):
    url='{}/tabledap/allDatasets.csv?datasetID%2CminLongitude%2CminLatitude&cdm_data_type=%22{}%22&minTime%3C={}&maxTime%3E={}'.format(e.server,
                        cdm_data_type,max_time,min_time)
    print(url)
    df = pd.read_csv(urlopen(url), skiprows=[1])
    return df
>> *)
Definition alllonlat_template : string :=
  "{}/tabledap/allDatasets.csv?datasetID%2CminLongitude%2CminLatitude&cdm_data_type=%22{}%22&minTime%3C={}&maxTime%3E={}".

Definition alllonlat (e : ERDDAP) (cdm_data_type min_time max_time : string) : M DataFrame :=
  url <- lift (format alllonlat_template
                 [server e; cdm_data_type; max_time; min_time]) ;;
  print url ;;
  body <- call_urlopen url ;;
  df <- lift (read_csv body [1]) ;;
  ret df.

(** [dfr = dfll[dfll['datasetID'].isin(search_df['Dataset ID'])]] *)
Definition stations (dfll search_df : DataFrame) : M DataFrame :=
  ids <- lift (column "datasetID" dfll) ;;
  wanted <- lift (column "Dataset ID" search_df) ;;
  lift (mask_rows (isin ids wanted) dfll).

(** *** Cell: loop through the datasets

<<
df_list = []
hv_list = []
for dataset_id in ctdbp['Dataset ID'].values:
    ooi.dataset_id = dataset_id
    ooi.variables = [
        'time',
        ooi.get_var_by_attr(dataset_id=dataset_id,  standard_name=standard_name)[0]
    ]
    try:
        ds = ooi.to_xarray(decode_times=True)
        df_list.append(ds)
        print(dataset_id)
        hv_list.append(ds[ooi.variables[-1]].hvplot(label=dataset_id))
    except:
        pass
>>
    The IOOS loop is the same text on the [ioos] client. *)
Definition fetch_one (dataset_id : string) : M unit :=
  ds <- call_to_xarray ;;
  df_list_append ds ;;
  print dataset_id ;;
  name <- variables_last ;;
  da <- lift (ds_getitem ds name) ;;
  p <- lift (hvplot da dataset_id) ;;
  hv_list_append p.

Definition loop_body (standard_name dataset_id : string) : M unit :=
  set_client (with_dataset_id dataset_id) ;;
  resolve_variables dataset_id standard_name ;;
  try_pass (fetch_one dataset_id).

Definition fetch_loop (standard_name : string) (ids : list string) : M unit :=
  new_lists ;;
  for_each ids (loop_body standard_name).

(** *** The notebook's constants *)
Definition ooi_server : string := "http://erddap.dataexplorer.oceanobservatories.org/erddap".
Definition ioos_server : string := "http://erddap.sensors.ioos.us/erddap".
Definition tabledap : string := "tabledap".
Definition min_time : string := "2018-07-01T00:00:00Z".
Definition max_time : string := "2018-07-15T00:00:00Z".
Definition standard_name : string := "sea_water_practical_salinity".
Definition cdm_data_type : string := "timeseries".

Definition kw : list (string * arg) :=
  [ ("standard_name", AStr standard_name);
    ("min_lon", AInt (-127)); ("max_lon", AInt (-122));
    ("min_lat", AInt 44); ("max_lat", AInt 48);
    ("min_time", AStr min_time); ("max_time", AStr max_time);
    ("cdm_data_type", AStr cdm_data_type) ].

(** *** The cells in order

    The OOI half of the notebook, run top to bottom on the [ooi] client; a
    cell that raises stops the run.  Cells that only render a plot are left
    out. *)
Definition notebook_ooi : M unit :=
  count_all ;;
  search_df <- search kw ;;
  read_one "ooi-ce01issm-sbd17-06-ctdbpc000" standard_name min_time max_time ;;
  ctdbp <- select_ctdbp search_df ;;
  e <- get_client ;;
  dfll <- alllonlat e "TimeSeries" min_time max_time ;;
  stations dfll search_df ;;
  ids <- lift (column "Dataset ID" ctdbp) ;;
  fetch_loop standard_name (values ids).

(** The IOOS half, on the [ioos] client:
<<
ioos.constraints = {'time>=': min_time,'time<=': max_time}
ioos.response='csv'
>>
    sits between the search and the loop. *)
Definition notebook_ioos : M unit :=
  search_df <- search kw ;;
  set_client (with_constraints [("time>=", min_time); ("time<=", max_time)]) ;;
  set_client (with_response "csv") ;;
  ids <- lift (column "Dataset ID" search_df) ;;
  fetch_loop standard_name (values ids) ;;
  e <- get_client ;;
  dfll <- alllonlat e "TimeSeries" min_time max_time ;;
  stations dfll search_df ;;
  ret tt.

End Cells.

(** *** The allDatasets table

    The URL [alllonlat] builds is a query on the allDatasets table of an
    ERDDAP server: the columns asked for, then the constraints, percent
    encoded ([%2C] a comma, [%22] a double quote, [%3C=] at most, [%3E=] at
    least). *)
Definition all_datasets_query (server category upper lower : string) : string :=
  (server ++ "/tabledap/allDatasets.csv?datasetID%2CminLongitude%2CminLatitude"
          ++ "&cdm_data_type=%22" ++ category ++ "%22"
          ++ "&minTime%3C=" ++ upper
          ++ "&maxTime%3E=" ++ lower)%string.

(** A dataset as the catalog of a server describes it.  Times are ISO 8601
    instants in UTC, all in the one format of the notebook, so that their
    order is the order of the strings. *)
Record Entry : Type := mkEntry {
  datasetID : string;
  category : string;
  minLongitude : cell;
  minLatitude : cell;
  minTime : string;
  maxTime : string
}.

Definition anchor (d : Entry) : list cell :=
  [CStr (datasetID d); minLongitude d; minLatitude d].

(** The coverage of [d] and the window from [lo] to [hi] have an instant in
    common. *)
Definition overlaps (lo hi : string) (d : Entry) : bool :=
  String.leb (minTime d) hi && String.leb lo (maxTime d).

Definition matching (cat lo hi : string) (catalog : list Entry) : list Entry :=
  filter (fun d => String.eqb (category d) cat && overlaps lo hi d) catalog.

(** What ERDDAP documents for the query [all_datasets_query _ cat upper
    lower] over a catalog: a table of the three columns with one row per
    dataset that satisfies the three constraints, in catalog order. *)
Definition answers_query (catalog : list Entry) (cat upper lower : string)
                         (df : DataFrame) : Prop :=
  columns df = ["datasetID"; "minLongitude"; "minLatitude"] /\
  rows df = map anchor
              (filter (fun d => String.eqb (category d) cat
                                && (String.leb (minTime d) upper
                                    && String.leb lower (maxTime d)))
                      catalog).

(** *** The metadata of a dataset

    The metadata table of a dataset lists its variables in the order the
    dataset declares them; here each comes with its standard name. *)
Definition carries (tag : string) (vars : list (string * string)) (name : string) : bool :=
  existsb (fun nv => String.eqb (fst nv) name && String.eqb (snd nv) tag) vars.

(** The first variable, in declared order, that carries the standard name. *)
Definition first_declared (tag : string) (vars : list (string * string)) : option string :=
  match filter (fun nv => String.eqb (snd nv) tag) vars with
  | [] => None
  | nv :: _ => Some (fst nv)
  end.

(** The match list of a library that, like erddapy, first collects the
    variable names of the table in a set and then keeps those that carry the
    standard name: the matches come in the order [visit] in which the set is
    gone through, which is not the order of the table. *)
Definition matches_visiting (visit : list string) (tag : string)
                            (vars : list (string * string)) : list string :=
  filter (carries tag vars) visit.

(** *** Stand-ins for the outside world

    A small deterministic world for running the cells: a URL is answered
    from [web], the metadata and the series of a dataset from [info] and
    [data]; a payload is already a table, and reading it only skips the
    listed lines (line 0 being the header). *)
Module Mock.

Fixpoint skip_lines (line : nat) (skiprows : list nat) (rs : list (list cell)) : list (list cell) :=
  match rs with
  | [] => []
  | r :: rest =>
      if existsb (Nat.eqb line) skiprows then skip_lines (S line) skiprows rest
      else r :: skip_lines (S line) skiprows rest
  end.

Definition read_table (body : DataFrame) (skiprows : list nat) : outcome DataFrame :=
  let rs := skip_lines 1 skiprows (rows body) in
  Return {| columns := columns body; index := seq 0 (length rs); rows := rs |}.

Definition world (web : string -> outcome DataFrame)
                 (info : string -> outcome (list string))
                 (data : string -> outcome string) : External :=
  {| Body := DataFrame;
     Dataset := string;
     DataArray := string;
     Plot := string;
     get_search_url := fun e r _ => (server e ++ "/search/advanced." ++ r)%string;
     get_download_url := fun e => (server e ++ "/" ++ protocol e)%string;
     urlopen := fun _ url => web url;
     read_csv := read_table;
     get_var_by_attr := fun _ _ id _ => info id;
     to_xarray := fun _ e =>
       match dataset_id e with
       | Some id => data id
       | None => Raise (ValueError "no dataset")
       end;
     ds_getitem := fun ds name => Return (ds ++ "." ++ name)%string;
     hvplot := fun _ label => Return label |}.

Definition no_web (url : string) : outcome DataFrame := Raise (HTTPError url).

(** Every dataset declares one salinity variable. *)
Definition info_ok (id : string) : outcome (list string) :=
  Return ["sea_water_practical_salinity"].

(** The series of A and C can be read, that of B cannot. *)
Definition data_ABC (id : string) : outcome string :=
  if String.eqb id "B" then Raise (HTTPError "B") else Return id.

(** B declares no variable with the standard name. *)
Definition info_ABC (id : string) : outcome (list string) :=
  if String.eqb id "B" then Return [] else Return ["sal"].

Definition data_ok (id : string) : outcome string := Return id.

(** A match list with two entries, for every dataset. *)
Definition info_two (id : string) : outcome (list string) :=
  Return ["sea_water_practical_salinity"; "sea_water_practical_salinity_qc"].

(** A dataset that declares two salinity variables after [time], the
    measured one first, and a set of its names that is gone through in
    another order. *)
Definition declared_two : list (string * string) :=
  [ ("time", "time");
    ("salinity", "sea_water_practical_salinity");
    ("salinity_adjusted", "sea_water_practical_salinity") ].

Definition visit_two : list string := ["salinity_adjusted"; "time"; "salinity"].

Definition info_unordered (id : string) : outcome (list string) :=
  Return (matches_visiting visit_two "sea_water_practical_salinity" declared_two).

(** The metadata of B cannot be had. *)
Definition info_B_down (id : string) : outcome (list string) :=
  if String.eqb id "B" then Raise (HTTPError "B") else Return ["sal"].

(** A server with three datasets, two of them CTDBP moorings. *)
Definition search_table : DataFrame :=
  {| columns := ["griddap"; "Institution"; "Dataset ID"; "tabledap"];
     index := [0; 1; 2];
     rows :=
       [ [CNaN; CStr "OOI"; CStr "ooi-ce01issm-sbd17-06-ctdbpc000"; CStr "t0"];
         [CNaN; CStr "OOI"; CStr "ooi-ce02shsm-sbd11-06-metbka000"; CStr "t1"];
         [CNaN; CStr "OOI"; CStr "ooi-ce06issm-sbd17-06-ctdbpc000"; CStr "t2"] ] |}.

Definition catalog : list Entry :=
  [ {| datasetID := "ooi-ce01issm-sbd17-06-ctdbpc000"; category := "TimeSeries";
       minLongitude := CInt (-124); minLatitude := CInt 44;
       minTime := "2014-04-17T20:45:00Z"; maxTime := "2018-07-10T00:00:00Z" |};
    {| datasetID := "old-mooring"; category := "TimeSeries";
       minLongitude := CInt (-125); minLatitude := CInt 45;
       minTime := "2010-01-01T00:00:00Z"; maxTime := "2011-01-01T00:00:00Z" |};
    {| datasetID := "a-glider"; category := "TrajectoryProfile";
       minLongitude := CInt (-126); minLatitude := CInt 46;
       minTime := "2018-07-02T00:00:00Z"; maxTime := "2018-07-03T00:00:00Z" |};
    {| datasetID := "ooi-ce06issm-sbd17-06-ctdbpc000"; category := "TimeSeries";
       minLongitude := CInt (-124); minLatitude := CInt 47;
       minTime := "2018-07-14T00:00:00Z"; maxTime := "2019-01-01T00:00:00Z" |} ].

(** The allDatasets answer for the notebook's window: the units line, then
    the two time series that overlap it. *)
Definition lonlat_table : DataFrame :=
  {| columns := ["datasetID"; "minLongitude"; "minLatitude"];
     index := [0; 1; 2];
     rows :=
       [ [CNaN; CStr "degrees_east"; CStr "degrees_north"];
         [CStr "ooi-ce01issm-sbd17-06-ctdbpc000"; CInt (-124); CInt 44];
         [CStr "ooi-ce06issm-sbd17-06-ctdbpc000"; CInt (-124); CInt 47] ] |}.

Definition web (url : string) : outcome DataFrame :=
  if String.eqb url (ooi_server ++ "/search/advanced.csv")%string
  then Return search_table
  else if String.eqb url
            (all_datasets_query ooi_server "TimeSeries" max_time min_time)
  then Return lonlat_table
  else Raise (HTTPError url).

End Mock.

(** [ooi = ERDDAP(server=server, protocol=protocol)] and
    [ioos = ERDDAP(server="http://erddap.sensors.ioos.us/erddap", protocol=protocol)] *)
Definition ooi0 : ERDDAP := new_ERDDAP ooi_server tabledap.
Definition ioos0 : ERDDAP := new_ERDDAP ioos_server tabledap.

(* ------------------------------------------------------------------ *)
(** *** Reading a history *)

(** Two clients with the same service configuration: everything but the
    dataset identifier and the variable list. *)
Definition same_configuration (a b : ERDDAP) : Prop :=
  server a = server b /\ protocol a = protocol b /\
  constraints a = constraints b /\ response a = response b.

(** A request as the notebook makes it: a call of [urlopen], of
    [get_var_by_attr] or of [to_xarray].  The first and the last go to the
    remote service; whether a metadata lookup does is the client library's
    business, see [on_the_wire]. *)
Inductive Request : Type :=
| Open (url : string)
| Metadata (dataset_id : string)
| Series (dataset_id : option string).

Definition request (ev : Event) : list Request :=
  match ev with
  | EvUrlopen url => [Open url]
  | EvInfo _ id _ => [Metadata id]
  | EvData e => [Series (dataset_id e)]
  | EvPrint _ => []
  end.

(** The requests the notebook has made in a history, oldest first. *)
Definition requests (h : list Event) : list Request := flat_map request h.

(** The lines printed, oldest first. *)
Definition printed (h : list Event) : list string :=
  flat_map (fun ev => match ev with EvPrint l => [l] | _ => [] end) h.

(** What the loop asks for when nothing stops it: for each dataset in turn
    its metadata, then its series. *)
Definition plan (ids : list string) : list Request :=
  flat_map (fun id => [Metadata id; Series (Some id)]) ids.

(** The datasets and the identifiers a loop over [ids] is expected to keep
    when the series of [id] is answered by [outcome_of id]: those that could
    be read, in the order of [ids]. *)
Definition fetched {D : Type} (outcome_of : string -> outcome D) (ids : list string) : list D :=
  flat_map (fun id => match outcome_of id with
                      | Return ds => [ds]
                      | Raise _ => []
                      end) ids.

Definition succeeded {D : Type} (outcome_of : string -> outcome D) (ids : list string) : list string :=
  filter (fun id => is_return (outcome_of id)) ids.

(* ------------------------------------------------------------------ *)
(** *** Reading a run *)

Section Observations.
Context {X : External}.

(** The client as an iteration on [id] sets it up before asking for the
    metadata, and after the variable has been resolved. *)
Definition pointed (id : string) (s : State) : ERDDAP :=
  with_dataset_id id (client s).

Definition resolved (id v : string) (s : State) : ERDDAP :=
  with_variables ["time"; v] (pointed id s).

(** The match list the iteration on [id] is given. *)
Definition match_list (tag id : string) (s : State) : outcome (list string) :=
  get_var_by_attr (history s) (pointed id s) id tag.

(** The answer to the series request the iteration on [id] then makes. *)
Definition series (tag id v : string) (s : State) : outcome Dataset :=
  to_xarray (history s ++ [EvInfo (pointed id s) id tag]) (resolved id v s).

(** The plot the iteration on [id] appends for a dataset it has fetched: one
    when the variable can be taken out of the dataset and drawn, none
    otherwise. *)
Definition plotted (ds : Dataset) (v id : string) : list Plot :=
  match ds_getitem ds v with
  | Return da =>
      match hvplot da id with
      | Return p => [p]
      | Raise _ => []
      end
  | Raise _ => []
  end.

(** Taking a variable out of a dataset and drawing it never fail. *)
Definition plots_never_fail : Prop :=
  (forall ds name, is_return (ds_getitem ds name) = true) /\
  (forall da label, is_return (hvplot da label) = true).

(** Every dataset of [ids] resolves: its match list has an entry at index 0,
    whenever it is asked for. *)
Definition resolves (tag : string) (ids : list string) : Prop :=
  forall h e id, In id ids ->
    exists v rest, get_var_by_attr h e id tag = Return (v :: rest).

(** The series request for a dataset of [ids] is answered by [outcome_of],
    whenever it is made. *)
Definition answered_by (outcome_of : string -> outcome Dataset) (ids : list string) : Prop :=
  forall h e id, In id ids -> dataset_id e = Some id ->
    to_xarray h e = outcome_of id.

(** A dataset was fetched for [id]: it is what a series request made with the
    client pointed at [id] returned. *)
Definition fetched_for (id : string) (ds : Dataset) : Prop :=
  exists h e, dataset_id e = Some id /\ to_xarray h e = Return ds.


(** The URL a search opens. *)
Definition search_url (e : ERDDAP) (k : list (string * arg)) : string :=
  get_search_url e "csv" k.

(** The columns the search keeps. *)
Definition search_columns : list string := ["Institution"; "Dataset ID"; "tabledap"].

(** What the search cell makes of the answer to its request. *)
Definition read_search (answer : outcome Body) : outcome DataFrame :=
  match answer with
  | Raise e => Raise e
  | Return body =>
      match read_csv body [] with
      | Raise e => Raise e
      | Return df => select_columns search_columns df
      end
  end.

(** The search fails with [e]: the request fails, or its answer cannot be
    read as a table, or the table lacks one of the three columns. *)
Definition search_fails (k : list (string * arg)) (s : State) (e : exn) : Prop :=
  let answer := urlopen (history s) (search_url (client s) k) in
  answer = Raise e \/
  (exists body, answer = Return body /\ read_csv body [] = Raise e) \/
  (exists body df, answer = Return body /\ read_csv body [] = Return df /\
                   select_columns search_columns df = Raise e).



End Observations.


(* ------------------------------------------------------------------ *)
(** *** Worlds to run the cells in *)

(** A and C can be read, B cannot; every dataset resolves. *)
Definition world_fetch_B_fails : External :=
  Mock.world Mock.no_web Mock.info_ok Mock.data_ABC.

(** B declares no salinity variable; every series can be read. *)
Definition world_B_unresolved : External :=
  Mock.world Mock.no_web Mock.info_ABC Mock.data_ok.

(** The metadata request for B fails; every series can be read. *)
Definition world_B_info_down : External :=
  Mock.world Mock.no_web Mock.info_B_down Mock.data_ok.

(** The match list of every dataset has two entries. *)
Definition world_two_matches : External :=
  Mock.world Mock.no_web Mock.info_two Mock.data_ok.

(** Every dataset declares two salinity variables, and the library returns
    the matches in the order of a set of names. *)
Definition world_unordered : External :=
  Mock.world Mock.no_web Mock.info_unordered Mock.data_ok.

(** A server that answers the search and the allDatasets query. *)
Definition world_online : External :=
  Mock.world Mock.web Mock.info_ok Mock.data_ok.

End Erddap.

(* ================================================================== *)
(** ** Notebook 06: bathymetry explorer *)
(* ================================================================== *)

Module Bathy.

Open Scope float_scope.

(** An xarray array: named dimensions, their coordinates, the shape, and the
    values in storage order.  Elevations are floating-point numbers; the
    missing value is NaN. *)
Record DataArray : Type := mkDataArray {
  dims : list string;
  coords : list (string * list float);
  shape : list nat;
  data : list float
}.

(** [na < c] and [na > c]: element by element. *)
Definition lt (na : DataArray) (c : float) : list bool :=
  map (fun v => PrimFloat.ltb v c) (data na).

Definition gt (na : DataArray) (c : float) : list bool :=
  map (fun v => PrimFloat.ltb c v) (data na).

(** [na.where(cond)]: the value where the condition holds, NaN elsewhere
    (and where the condition has no entry); dimensions, coordinates and
    shape are those of [na]. *)
Fixpoint where_data (vs : list float) (cond : list bool) : list float :=
  match vs, cond with
  | [], _ => []
  | v :: vs', [] => nan :: where_data vs' []
  | v :: vs', b :: cond' => (if b then v else nan) :: where_data vs' cond'
  end.

Definition where_ (na : DataArray) (cond : list bool) : DataArray :=
  {| dims := dims na; coords := coords na; shape := shape na;
     data := where_data (data na) cond |}.

(** The masking cell:
<<
na = na.where(na<0)
na = na.where(na>-1000)
>> *)
Definition mask_land_and_deep (na : DataArray) : DataArray :=
  let na := where_ na (lt na 0) in
  let na := where_ na (gt na (-1000)) in
  na.

(** What the cell makes of one value. *)
Definition masked (x : float) : float :=
  let y := if PrimFloat.ltb x 0 then x else nan in
  if PrimFloat.ltb (-1000) y then y else nan.

End Bathy.

(* ================================================================== *)
(** ** Further readings of the cells *)
(* ================================================================== *)

Module Runs.
Import Erddap.

(** [{'time>=': min_time, 'time<=': max_time}] *)
Definition window (t0 t1 : string) : list (string * string) :=
  [("time>=", t0); ("time<=", t1)].

(** The client as the first three assignments of the manual cell leave it:
    pointed at the dataset, restricted to the window, answering in CSV. *)
Definition configured (id t0 t1 : string) (e : ERDDAP) : ERDDAP :=
  with_response "csv" (with_constraints (window t0 t1) (with_dataset_id id e)).

(** A client that asks for the window, in CSV. *)
Definition windowed (t0 t1 : string) (e : ERDDAP) : Prop :=
  constraints e = Some (window t0 t1) /\ response e = "csv".

(** The clients with which the series requests of a history were made,
    oldest first. *)
Definition series_clients (h : list Event) : list ERDDAP :=
  flat_map (fun ev => match ev with EvData e => [e] | _ => [] end) h.

(** A cell that holds text. *)
Definition is_text (c : cell) : bool :=
  match c with CStr _ => true | _ => false end.

(** A frame with one label per row, as [read_csv] makes them. *)
Definition well_formed (df : DataFrame) : Prop :=
  length (index df) = length (rows df).

(** The test of the CTDBP cell on a cell of text. *)
Definition has_ctdbp (c : cell) : bool := contains "ctdbp" (cell_str c).

(** The test of [isin]. *)
Definition listed (wanted : list cell) (c : cell) : bool :=
  existsb (cell_eqb c) wanted.


(** The table the search cell makes of [Mock.search_table]. *)
Definition search_result : DataFrame :=
  {| columns := ["Institution"; "Dataset ID"; "tabledap"];
     index := [0; 1; 2];
     rows :=
       [ [CStr "OOI"; CStr "ooi-ce01issm-sbd17-06-ctdbpc000"; CStr "t0"];
         [CStr "OOI"; CStr "ooi-ce02shsm-sbd11-06-metbka000"; CStr "t1"];
         [CStr "OOI"; CStr "ooi-ce06issm-sbd17-06-ctdbpc000"; CStr "t2"] ] |}.

(** A table the search cannot use: it has no [tabledap] column. *)
Definition short_table : DataFrame :=
  {| columns := ["Institution"; "Dataset ID"];
     index := [0];
     rows := [ [CStr "OOI"; CStr "ooi-ce01issm-sbd17-06-ctdbpc000"] ] |}.

(** A table whose identifiers are numbers: pandas reads such a column as a
    column of integers. *)
Definition numbered_table : DataFrame :=
  {| columns := ["Institution"; "Dataset ID"; "tabledap"];
     index := [0; 1];
     rows := [ [CStr "OOI"; CInt 101; CStr "t0"];
               [CStr "OOI"; CInt 102; CStr "t1"] ] |}.

(** A server whose search answers with [short_table]. *)
Definition world_short_answer : External :=
  Mock.world (fun _ => Return short_table) Mock.info_ok Mock.data_ok.

Section Judgements.
Context {X : External}.

(** A cell fragment that makes no series request and leaves the client as it
    is, however it ends. *)
Definition quiet {A} (m : M A) : Prop :=
  forall s, exists evs,
    history (snd (m s)) = history s ++ evs /\
    series_clients evs = [] /\
    client (snd (m s)) = client s.

(** Run on a client that satisfies [pre], the fragment makes its series
    requests for the window only, and leaves a client that satisfies [post]
    when it returns. *)
Definition windows (t0 t1 : string) (pre post : ERDDAP -> Prop)
                   {A} (m : M A) : Prop :=
  forall s, pre (client s) ->
    exists evs,
      history (snd (m s)) = history s ++ evs /\
      Forall (windowed t0 t1) (series_clients evs) /\
      (is_return (fst (m s)) = true -> post (client (snd (m s)))).

End Judgements.

End Runs.

(* ================================================================== *)
(** ** Properties of notebook 05 *)
(* ================================================================== *)

Module ErddapFacts.
Import Erddap.

(* ------------------------------------------------------------------ *)
(** *** The helpers on small inputs *)

Example contains_ctdbp :
  contains "ctdbp" "ooi-ce01issm-sbd17-06-ctdbpc000" = true /\
  contains "ctdbp" "ooi-ce02shsm-sbd11-06-metbka000" = false.
Proof. split; reflexivity. Qed.

Example format_two_fields :
  format "{}/info/{}/index.csv" ["http://host/erddap"; "A"]
    = Return "http://host/erddap/info/A/index.csv" /\
  format "{}/{}" ["only one"] = Raise IndexError.
Proof. split; reflexivity. Qed.

Example alllonlat_url_of_the_notebook :
  format alllonlat_template [ooi_server; "TimeSeries"; max_time; min_time]
    = Return "http://erddap.dataexplorer.oceanobservatories.org/erddap/tabledap/allDatasets.csv?datasetID%2CminLongitude%2CminLatitude&cdm_data_type=%22TimeSeries%22&minTime%3C=2018-07-15T00:00:00Z&maxTime%3E=2018-07-01T00:00:00Z".
Proof. reflexivity. Qed.

Example select_ctdbp_rows :
  fst (@select_ctdbp world_online Mock.search_table (initial ooi0))
    = Return {| columns := ["index"; "griddap"; "Institution"; "Dataset ID"; "tabledap"];
                index := [0; 1];
                rows :=
                  [ [CInt 0; CNaN; CStr "OOI";
                     CStr "ooi-ce01issm-sbd17-06-ctdbpc000"; CStr "t0"];
                    [CInt 2; CNaN; CStr "OOI";
                     CStr "ooi-ce06issm-sbd17-06-ctdbpc000"; CStr "t2"] ] |}.
Proof. reflexivity. Qed.

(* ------------------------------------------------------------------ *)
(** *** Facts about frames *)


Lemma keep_map {A B} (f : A -> B) bs : forall xs,
  keep bs (map f xs) = map f (keep bs xs).
Proof.
  induction bs as [|b bs IH]; intros [|x xs]; simpl; try reflexivity.
  destruct b; simpl; rewrite IH; reflexivity.
Qed.





(** Selecting columns keeps every row in its place: row [n] of the result is
    row [n] of the frame read at the selected columns. *)
Lemma select_columns_rows cs df df' :
  select_columns cs df = Return df' ->
  exists ps,
    col_positions cs (columns df) = Return ps /\
    columns df' = cs /\
    index df' = index df /\
    rows df' = map (fun r => map (fun i => at_pos i r) ps) (rows df).
Proof.
  unfold select_columns. intros H.
  destruct (col_positions cs (columns df)) as [ps|]; [|discriminate].
  inversion H; subst df'. exists ps. repeat split.
Qed.

(* ------------------------------------------------------------------ *)
(** *** Properties of the cells *)

Section Properties.
Context {X : External}.

Ltac unfold_cells :=
  unfold fetch_loop, loop_body, fetch_one, resolve_variables, variables_last,
         read_one, search, count_all, select_ctdbp, alllonlat, stations,
         new_lists, df_list_append, hv_list_append, call_to_xarray,
         call_get_var_by_attr, call_urlopen, print, get_client, set_client,
         try_pass, lift, bind, ret, log; simpl.

(** A property that every iteration preserves, whether it returns or raises,
    holds when the loop stops. *)
Lemma for_each_invariant {A} (P : State -> Prop) (body : A -> M unit) xs :
  (forall x s, In x xs -> P s -> P (snd (body x s))) ->
  forall s, P s -> P (snd (for_each xs body s)).
Proof.
  induction xs as [|x xs IH]; intros Hbody s Hs; simpl.
  - exact Hs.
  - unfold bind. specialize (Hbody x s (or_introl eq_refl) Hs) as H1.
    destruct (body x s) as [[[]|e] s1]; simpl in *.
    + apply IH; [intros y t Hy; apply Hbody; right; exact Hy | exact H1].
    + exact H1.
Qed.

(** An iteration stops the loop when the metadata request fails. *)
Lemma loop_body_info_raises tag id s e :
  match_list tag id s = Raise e ->
  loop_body tag id s =
    (Raise e, {| history := history s ++ [EvInfo (pointed id s) id tag];
                 client := pointed id s;
                 df_list := df_list s; hv_list := hv_list s |}).
Proof.
  unfold match_list, pointed. intros H. unfold_cells. rewrite H. reflexivity.
Qed.

(** An iteration stops the loop when the match list is empty. *)
Lemma loop_body_no_match tag id s :
  match_list tag id s = Return [] ->
  loop_body tag id s =
    (Raise IndexError,
     {| history := history s ++ [EvInfo (pointed id s) id tag];
        client := pointed id s;
        df_list := df_list s; hv_list := hv_list s |}).
Proof.
  unfold match_list, pointed. intros H. unfold_cells. rewrite H. reflexivity.
Qed.

(** An iteration whose series request fails changes the client and the
    history, and nothing else. *)
Lemma loop_body_fetch_raises tag id s v rest e :
  match_list tag id s = Return (v :: rest) ->
  series tag id v s = Raise e ->
  loop_body tag id s =
    (Return tt,
     {| history := history s ++ [EvInfo (pointed id s) id tag; EvData (resolved id v s)];
        client := resolved id v s;
        df_list := df_list s; hv_list := hv_list s |}).
Proof.
  unfold match_list, series, resolved, pointed. intros H1 H2.
  unfold_cells. rewrite H1. simpl. rewrite H2. simpl.
  rewrite <- app_assoc. reflexivity.
Qed.

(** An iteration whose series request succeeds appends the dataset and
    prints the identifier; the plot is appended when it can be drawn. *)
Lemma loop_body_fetch_returns tag id s v rest ds :
  match_list tag id s = Return (v :: rest) ->
  series tag id v s = Return ds ->
  exists hv,
    loop_body tag id s =
      (Return tt,
       {| history := history s ++ [EvInfo (pointed id s) id tag;
                                   EvData (resolved id v s); EvPrint id];
          client := resolved id v s;
          df_list := df_list s ++ [ds]; hv_list := hv |}) /\
    (hv = hv_list s \/
     exists da p, hvplot da id = Return p /\ hv = hv_list s ++ [p]).
Proof.
  unfold match_list, series, resolved, pointed. intros H1 H2.
  unfold_cells. rewrite H1. simpl. rewrite H2. simpl.
  repeat rewrite <- app_assoc. simpl.
  destruct (ds_getitem ds v) as [da|] eqn:E; simpl;
    [destruct (hvplot da id) as [p|] eqn:E'; simpl|];
    eexists; (split; [reflexivity|]); eauto.
Qed.

(** The same iteration, with the plot list spelled out. *)
Lemma loop_body_fetch_plots tag id s v rest ds :
  match_list tag id s = Return (v :: rest) ->
  series tag id v s = Return ds ->
  loop_body tag id s =
    (Return tt,
     {| history := history s ++ [EvInfo (pointed id s) id tag;
                                 EvData (resolved id v s); EvPrint id];
        client := resolved id v s;
        df_list := df_list s ++ [ds];
        hv_list := hv_list s ++ plotted ds v id |}).
Proof.
  unfold match_list, series, resolved, pointed, plotted. intros H1 H2.
  unfold_cells. rewrite H1. simpl. rewrite H2. simpl.
  repeat rewrite <- app_assoc. simpl.
  destruct (ds_getitem ds v) as [da|] eqn:E; simpl;
    [destruct (hvplot da id) as [p|] eqn:E'; simpl|];
    rewrite ?app_nil_r; reflexivity.
Qed.

Lemma plotted_length ds v id :
  length (plotted ds v id) <= 1 /\
  (plots_never_fail -> length (plotted ds v id) = 1).
Proof.
  unfold plotted, plots_never_fail. split.
  - destruct (ds_getitem ds v) as [da|]; [destruct (hvplot da id)|]; simpl; lia.
  - intros [Hg Hp]. specialize (Hg ds v).
    destruct (ds_getitem ds v) as [da|]; [|discriminate].
    specialize (Hp da id). destruct (hvplot da id); [reflexivity|discriminate].
Qed.

(** An iteration never adds more plots than datasets, and adds as many when
    plotting cannot fail. *)
Lemma loop_body_plots tag id s :
  let s' := snd (loop_body tag id s) in
  (length (hv_list s) <= length (df_list s) ->
   length (hv_list s') <= length (df_list s')) /\
  (plots_never_fail ->
   length (hv_list s) = length (df_list s) ->
   length (hv_list s') = length (df_list s')).
Proof.
  destruct (match_list tag id s) as [[|v rest]|e] eqn:Hm.
  - rewrite (loop_body_no_match tag id s Hm). simpl. auto.
  - destruct (series tag id v s) as [ds|e] eqn:Hs.
    + rewrite (loop_body_fetch_plots tag id s v rest ds Hm Hs). simpl.
      rewrite !length_app. simpl.
      destruct (plotted_length ds v id) as [H1 H2].
      split; [lia|]. intros Hp. rewrite (H2 Hp). lia.
    + rewrite (loop_body_fetch_raises tag id s v rest e Hm Hs). simpl. auto.
  - rewrite (loop_body_info_raises tag id s e Hm). simpl. auto.
Qed.

(** What one iteration can add to [df_list]: nothing, or the dataset its
    series request returned. *)
Lemma loop_body_df_list tag id s :
  let s' := snd (loop_body tag id s) in
  df_list s' = df_list s \/
  exists v ds, series tag id v s = Return ds /\ df_list s' = df_list s ++ [ds].
Proof.
  destruct (match_list tag id s) as [[|v rest]|e] eqn:Hm.
  - rewrite (loop_body_no_match tag id s Hm). left; reflexivity.
  - destruct (series tag id v s) as [ds|e] eqn:Hs.
    + destruct (loop_body_fetch_returns tag id s v rest ds Hm Hs) as (hv & -> & _).
      right. exists v, ds. split; [exact Hs|reflexivity].
    + rewrite (loop_body_fetch_raises tag id s v rest e Hm Hs). left; reflexivity.
  - rewrite (loop_body_info_raises tag id s e Hm). left; reflexivity.
Qed.

Lemma requests_app h1 h2 : requests (h1 ++ h2) = requests h1 ++ requests h2.
Proof. apply flat_map_app. Qed.

Lemma printed_app h1 h2 : printed (h1 ++ h2) = printed h1 ++ printed h2.
Proof. apply flat_map_app. Qed.

Lemma fetched_app {D} (f : string -> outcome D) a b :
  fetched f (a ++ b) = fetched f a ++ fetched f b.
Proof. apply flat_map_app. Qed.

Lemma fetched_length {D} (f : string -> outcome D) ids :
  length (fetched f ids) = length (succeeded f ids).
Proof.
  induction ids as [|id ids IH]; simpl; [reflexivity|].
  rewrite length_app, IH. destruct (f id); reflexivity.
Qed.

Lemma succeeded_length {D} (f : string -> outcome D) ids :
  length (succeeded f ids) <= length ids.
Proof. apply filter_length_le. Qed.

(** One iteration on a dataset that resolves. *)
Lemma loop_body_resolves tag id s outcome_of :
  resolves tag [id] -> answered_by outcome_of [id] ->
  exists s',
    loop_body tag id s = (Return tt, s') /\
    df_list s' = df_list s ++ fetched outcome_of [id] /\
    printed (history s') = printed (history s) ++ succeeded outcome_of [id] /\
    requests (history s') = requests (history s) ++ plan [id].
Proof.
  intros Hres Hans.
  destruct (Hres (history s) (pointed id s) id (or_introl eq_refl)) as (v & rest & Hv).
  assert (Hs : series tag id v s = outcome_of id)
    by (apply Hans; [left|]; reflexivity).
  destruct (outcome_of id) as [ds|e] eqn:Ho.
  - destruct (loop_body_fetch_returns tag id s v rest ds Hv Hs) as (hv & -> & _).
    eexists; split; [reflexivity|]. simpl.
    rewrite requests_app, printed_app. unfold succeeded. simpl. rewrite Ho.
    auto.
  - rewrite (loop_body_fetch_raises tag id s v rest e Hv Hs).
    eexists; split; [reflexivity|]. simpl.
    rewrite requests_app, printed_app. unfold succeeded. simpl. rewrite Ho.
    simpl. rewrite !app_nil_r. auto.
Qed.

Lemma resolves_cons tag id ids :
  resolves tag (id :: ids) -> resolves tag [id] /\ resolves tag ids.
Proof.
  intros H; split; intros h e x Hx; apply H; simpl in *; tauto.
Qed.

Lemma answered_by_cons f id ids :
  answered_by f (id :: ids) -> answered_by f [id] /\ answered_by f ids.
Proof.
  intros H; split; intros h e x Hx; apply H; simpl in *; tauto.
Qed.

(** The loop proper, from any state. *)
Lemma for_each_resolves tag outcome_of ids : forall s,
  resolves tag ids -> answered_by outcome_of ids ->
  exists s',
    for_each ids (loop_body tag) s = (Return tt, s') /\
    df_list s' = df_list s ++ fetched outcome_of ids /\
    printed (history s') = printed (history s) ++ succeeded outcome_of ids /\
    requests (history s') = requests (history s) ++ plan ids.
Proof.
  induction ids as [|id ids IH]; intros s Hres Hans.
  - exists s. simpl. unfold ret. rewrite !app_nil_r. auto.
  - apply resolves_cons in Hres as [Hr1 Hr]. apply answered_by_cons in Hans as [Ha1 Ha].
    destruct (loop_body_resolves tag id s outcome_of Hr1 Ha1) as (s1 & E1 & D1 & P1 & R1).
    destruct (IH s1 Hr Ha) as (s2 & E2 & D2 & P2 & R2).
    exists s2. simpl for_each. unfold bind at 1. rewrite E1.
    split; [exact E2|].
    rewrite D2, D1, P2, P1, R2, R1.
    change (id :: ids) with ([id] ++ ids).
    unfold succeeded, plan. rewrite filter_app, flat_map_app, fetched_app, <- !app_assoc.
    auto.
Qed.

(** However the loop ends, [hv_list] is no longer than [df_list], and as long
    when plotting cannot fail. *)
Lemma fetch_loop_plots tag ids s :
  let s' := snd (fetch_loop tag ids s) in
  length (hv_list s') <= length (df_list s') /\
  (plots_never_fail -> length (hv_list s') = length (df_list s')).
Proof.
  unfold fetch_loop, bind. simpl. split.
  - apply (for_each_invariant
             (fun t => length (hv_list t) <= length (df_list t))).
    + intros id t _. apply loop_body_plots.
    + simpl. lia.
  - intros Hp.
    apply (for_each_invariant
             (fun t => length (hv_list t) = length (df_list t))).
    + intros id t _. apply loop_body_plots. exact Hp.
    + reflexivity.
Qed.

Lemma keep_none {A} (xs : list A) : keep (repeat false (length xs)) xs = [].
Proof. induction xs as [|x xs IH]; simpl; [reflexivity|exact IH]. Qed.

(** Whatever the services answer, what the loop adds to [df_list] is, in the
    order of the identifiers, a dataset fetched for each identifier of a
    selection of them. *)
Lemma for_each_keeps_order tag ids : forall s,
  exists mask dd,
    length mask = length ids /\
    df_list (snd (for_each ids (loop_body tag) s)) = df_list s ++ dd /\
    Forall2 fetched_for (keep mask ids) dd.
Proof.
  induction ids as [|id ids IH]; intros s.
  - exists [], []. simpl. rewrite app_nil_r. auto.
  - simpl for_each. unfold bind.
    pose proof (loop_body_df_list tag id s) as Hd.
    destruct (loop_body tag id s) as [[[]|e] s1] eqn:E1; simpl in Hd.
    + destruct (IH s1) as (mask & dd & Hl & Hdd & Hf).
      destruct Hd as [Hd|(v & ds & Hs & Hd)].
      * exists (false :: mask), dd. simpl.
        split; [congruence|]. split; [congruence|exact Hf].
      * exists (true :: mask), (ds :: dd). simpl.
        split; [congruence|]. split.
        -- rewrite Hdd, Hd, <- app_assoc. reflexivity.
        -- constructor; [|exact Hf].
           do 2 eexists. split; [|exact Hs]. reflexivity.
    + destruct Hd as [Hd|(v & ds & Hs & Hd)].
      * exists (false :: repeat false (length ids)), []. simpl.
        rewrite repeat_length, keep_none, app_nil_r. auto.
      * exists (true :: repeat false (length ids)), [ds]. simpl.
        rewrite repeat_length, keep_none. split; [reflexivity|].
        split; [exact Hd|].
        constructor; [|constructor].
        do 2 eexists. split; [|exact Hs]. reflexivity.
Qed.

(** What the loop keeps.  Whatever the services answer, the datasets in
    [df_list] when the loop stops are, in the order of the identifiers and
    with nothing standing for the others, one dataset fetched for each
    identifier of a selection of them.  When every dataset resolves its
    variable, so that the only step that can fail is inside the [try], and
    the series request of each identifier is answered by [outcome_of], the
    loop returns and the selection is exactly the identifiers that succeeded:
    [df_list] holds their datasets in the order of the identifiers, as many
    as succeeded; the identifiers printed are the same sub-list.  The plot
    list [hv_list] is filled alongside: it has an entry for each of these
    datasets that could also be drawn, one for each when drawing cannot
    fail.  A dataset that does not resolve is another matter: see
    [fetch_loop_stops_at_unresolved]. *)
Lemma fetch_loop_keeps_successes tag ids outcome_of s :
  (exists mask,
     length mask = length ids /\
     Forall2 fetched_for (keep mask ids)
             (df_list (snd (fetch_loop tag ids s)))) /\
  (resolves tag ids -> answered_by outcome_of ids ->
   exists s',
     fetch_loop tag ids s = (Return tt, s') /\
     df_list s' = fetched outcome_of ids /\
     length (df_list s') = length (succeeded outcome_of ids) /\
     length (succeeded outcome_of ids) <= length ids /\
     printed (history s') = printed (history s) ++ succeeded outcome_of ids /\
     length (hv_list s') <= length (df_list s') /\
     (plots_never_fail -> length (hv_list s') = length (df_list s'))).
Proof.
  split.
  - unfold fetch_loop, bind. simpl.
    destruct (for_each_keeps_order tag ids
                {| history := history s; client := client s;
                   df_list := []; hv_list := [] |})
      as (mask & dd & Hl & Hd & Hf).
    exists mask. rewrite Hd. simpl. auto.
  - intros Hres Hans.
    destruct (for_each_resolves tag outcome_of ids
                (snd (new_lists s)) Hres Hans) as (s' & E & D & P & _).
    pose proof (fetch_loop_plots tag ids s) as HP.
    exists s'. unfold fetch_loop, bind in *. simpl in *. rewrite E in HP.
    repeat split; auto; try apply HP.
    + rewrite D; apply fetched_length.
    + apply succeeded_length.
Qed.

(** One iteration on a dataset whose match list is not empty asks for its
    metadata, then for its series, and for nothing else. *)
Lemma loop_body_plan_aux tag id s v rest :
  match_list tag id s = Return (v :: rest) ->
  exists s' evs,
    loop_body tag id s = (Return tt, s') /\
    history s' = history s ++ evs /\
    requests evs = plan [id].
Proof.
  intros Hv.
  destruct (series tag id v s) as [ds|e] eqn:Hs.
  - rewrite (loop_body_fetch_plots tag id s v rest ds Hv Hs).
    do 2 eexists. split; [reflexivity|]. simpl. split; reflexivity.
  - rewrite (loop_body_fetch_raises tag id s v rest e Hv Hs).
    do 2 eexists. split; [reflexivity|]. simpl. split; reflexivity.
Qed.





(** Whatever the services answer, an iteration asks for the metadata of its
    dataset and then, unless that already stopped it, for its series. *)
Lemma loop_body_requests tag id s :
  exists r s' evs,
    loop_body tag id s = (r, s') /\
    history s' = history s ++ evs /\
    (r = Return tt /\ requests evs = plan [id] \/
     (exists e, r = Raise e) /\ requests evs = [Metadata id]).
Proof.
  destruct (match_list tag id s) as [[|v rest]|e] eqn:Hm.
  - rewrite (loop_body_no_match tag id s Hm).
    do 3 eexists. split; [reflexivity|]. split; [reflexivity|].
    right. split; [eexists|]; reflexivity.
  - destruct (loop_body_plan_aux tag id s v rest Hm) as (s' & evs & E & H & R).
    exists (Return tt), s', evs. auto.
  - rewrite (loop_body_info_raises tag id s e Hm).
    do 3 eexists. split; [reflexivity|]. split; [reflexivity|].
    right. split; [eexists|]; reflexivity.
Qed.

(** Whatever the services answer, the loop stops, and what it has asked for
    by then is the beginning of its plan: all of it when the loop has come to
    its end. *)
Lemma for_each_requests tag ids : forall s,
  exists r s' evs rest,
    for_each ids (loop_body tag) s = (r, s') /\
    history s' = history s ++ evs /\
    plan ids = requests evs ++ rest /\
    (r = Return tt -> rest = []).
Proof.
  induction ids as [|id ids IH]; intros s.
  - exists (Return tt), s, [], []. simpl. unfold ret. rewrite app_nil_r. auto.
  - destruct (loop_body_requests tag id s)
      as (r1 & s1 & evs1 & E1 & H1 & [[-> R1]|[[e ->] R1]]).
    + destruct (IH s1) as (r & s2 & evs2 & rest & E2 & H2 & P2 & N2).
      exists r, s2, (evs1 ++ evs2), rest.
      simpl for_each. unfold bind at 1. rewrite E1.
      split; [exact E2|]. split; [rewrite H2, H1, app_assoc; reflexivity|].
      split; [|exact N2].
      rewrite requests_app, R1, <- app_assoc, <- P2. reflexivity.
    + exists (Raise e), s1, evs1, (Series (Some id) :: plan ids).
      simpl for_each. unfold bind at 1. rewrite E1.
      split; [reflexivity|]. split; [exact H1|].
      split; [rewrite R1; reflexivity|discriminate].
Qed.







(** What an iteration leaves in the client when it comes to its end. *)
Lemma loop_body_client tag id s s' :
  loop_body tag id s = (Return tt, s') ->
  exists v rest,
    match_list tag id s = Return (v :: rest) /\ client s' = resolved id v s.
Proof.
  intros H.
  destruct (match_list tag id s) as [[|v rest]|e] eqn:Hm.
  - rewrite (loop_body_no_match tag id s Hm) in H. discriminate.
  - exists v, rest. split; [reflexivity|].
    destruct (series tag id v s) as [ds|e] eqn:Hs.
    + destruct (loop_body_fetch_returns tag id s v rest ds Hm Hs) as (hv & E & _).
      rewrite E in H. inversion H. reflexivity.
    + rewrite (loop_body_fetch_raises tag id s v rest e Hm Hs) in H.
      inversion H. reflexivity.
  - rewrite (loop_body_info_raises tag id s e Hm) in H. discriminate.
Qed.

(** However an iteration ends, it has assigned no attribute of the client
    other than the identifier and the variables. *)
Lemma loop_body_frame tag id s :
  same_configuration (client (snd (loop_body tag id s))) (client s).
Proof.
  destruct (match_list tag id s) as [[|v rest]|e] eqn:Hm.
  - rewrite (loop_body_no_match tag id s Hm). repeat split.
  - destruct (series tag id v s) as [ds|e] eqn:Hs.
    + destruct (loop_body_fetch_returns tag id s v rest ds Hm Hs) as (hv & -> & _).
      repeat split.
    + rewrite (loop_body_fetch_raises tag id s v rest e Hm Hs). repeat split.
  - rewrite (loop_body_info_raises tag id s e Hm). repeat split.
Qed.

Lemma same_configuration_trans a b c :
  same_configuration a b -> same_configuration b c -> same_configuration a c.
Proof.
  unfold same_configuration. intros (?&?&?&?) (?&?&?&?).
  repeat split; congruence.
Qed.

(** A loop over [xs ++ ys] that comes to its end is a loop over [xs] that
    comes to its end, followed by one over [ys]. *)
Lemma for_each_app_returns {A} (body : A -> M unit) xs ys : forall s s',
  for_each (xs ++ ys) body s = (Return tt, s') ->
  exists s1, for_each xs body s = (Return tt, s1) /\
             for_each ys body s1 = (Return tt, s').
Proof.
  induction xs as [|x xs IH]; intros s s' H; simpl in *.
  - exists s. split; [reflexivity|exact H].
  - unfold bind in *. destruct (body x s) as [[[]|e] s1]; [|discriminate].
    apply IH. exact H.
Qed.

(** A loop over [xs ++ ys] is a loop over [xs] and, when that one comes to
    its end, a loop over [ys]. *)
Lemma for_each_app {A} (body : A -> M unit) xs ys : forall s,
  for_each (xs ++ ys) body s =
    match for_each xs body s with
    | (Return _, s1) => for_each ys body s1
    | (Raise e, s1) => (Raise e, s1)
    end.
Proof.
  induction xs as [|x xs IH]; intros s; simpl.
  - reflexivity.
  - unfold bind. destruct (body x s) as [[[]|e] s1]; [apply IH|reflexivity].
Qed.

(** The loop stops at the first dataset that does not resolve: when the loop
    over [ids1] has come to its end and the match list of the next dataset is
    empty, or cannot be had, the loop over the whole list raises there; the
    datasets after it are not asked for and the lists stay as the loop over
    [ids1] left them. *)
Lemma fetch_loop_stops_at_unresolved tag ids1 id ids2 s s1 e :
  fetch_loop tag ids1 s = (Return tt, s1) ->
  match_list tag id s1 = Return [] /\ e = IndexError \/
  match_list tag id s1 = Raise e ->
  fetch_loop tag (ids1 ++ id :: ids2) s =
    (Raise e,
     {| history := history s1 ++ [EvInfo (pointed id s1) id tag];
        client := pointed id s1;
        df_list := df_list s1; hv_list := hv_list s1 |}).
Proof.
  unfold fetch_loop, bind. simpl. intros H1 Hm.
  rewrite for_each_app, H1. simpl. unfold bind.
  destruct Hm as [[Hm ->]|Hm].
  - rewrite (loop_body_no_match tag id s1 Hm). reflexivity.
  - rewrite (loop_body_info_raises tag id s1 e Hm). reflexivity.
Qed.

(** C9.  An iteration of the loop assigns two attributes of the one client
    object, [dataset_id] and [variables], and no other: however it ends, the
    server, protocol, constraints and response of the client are as before,
    and when it comes to its end the client is the old one with the
    identifier of the iteration and the variables resolved for it.  The same
    four attributes are therefore unchanged by the whole loop, and when the
    loop has come to its end over a list ending in [last], the client holds
    [last] and the variables resolved for [last]. *)
Theorem fetch_loop_mutates_id_and_variables tag :
  (forall id s,
     same_configuration (client (snd (loop_body tag id s))) (client s)) /\
  (forall id s s',
     loop_body tag id s = (Return tt, s') ->
     exists v rest,
       match_list tag id s = Return (v :: rest) /\
       client s' = with_variables ["time"; v] (with_dataset_id id (client s))) /\
  (forall ids s,
     same_configuration (client (snd (fetch_loop tag ids s))) (client s)) /\
  (forall ids last s s',
     fetch_loop tag (ids ++ [last]) s = (Return tt, s') ->
     exists s1 v rest,
       fetch_loop tag ids s = (Return tt, s1) /\
       match_list tag last s1 = Return (v :: rest) /\
       dataset_id (client s') = Some last /\
       variables (client s') = Some ["time"; v]).
Proof.
  split; [|split; [|split]].
  - apply loop_body_frame.
  - intros id s s' H. apply loop_body_client in H. exact H.
  - intros ids s. unfold fetch_loop, bind. simpl.
    apply (for_each_invariant
             (fun t => same_configuration (client t) (client s))).
    + intros id t _ Ht.
      eapply same_configuration_trans; [apply loop_body_frame|exact Ht].
    + repeat split.
  - intros ids last s s' H. unfold fetch_loop, bind in *. simpl in *.
    apply for_each_app_returns in H as (s1 & E1 & E2).
    simpl in E2. unfold bind, ret in E2.
    destruct (loop_body tag last s1) as [[[]|e] s2] eqn:EL; [|discriminate].
    inversion E2; subst s2.
    apply loop_body_client in EL as (v & rest & Hm & Hc).
    exists s1, v, rest. rewrite Hc. repeat split; auto.
Qed.

(** The assignment of [variables] when the match list has an entry at
    index 0. *)
Lemma resolve_variables_returns id tag s ms v :
  get_var_by_attr (history s) (client s) id tag = Return ms ->
  item0 ms = Return v ->
  resolve_variables id tag s =
    (Return tt,
     {| history := history s ++ [EvInfo (client s) id tag];
        client := with_variables ["time"; v] (client s);
        df_list := df_list s; hv_list := hv_list s |}).
Proof.
  intros H H0. unfold_cells. rewrite H. simpl. rewrite H0. reflexivity.
Qed.

(** C4 (amended).  For a dataset whose match list is not empty, the variable
    requested besides [time] is the entry at index 0 of that list as the
    library returns it, whatever follows it in the list: the first match in
    the library's order.  In the loop the list asked for is the one of the
    dataset of the iteration, asked on the client already pointed at that
    dataset, and the series request of the iteration is made with the
    variable so chosen. *)
Theorem resolution_takes_index_0 tag id :
  (forall s ms v,
     get_var_by_attr (history s) (client s) id tag = Return ms ->
     item0 ms = Return v ->
     nth_error ms 0 = Some v /\
     exists s',
       resolve_variables id tag s = (Return tt, s') /\
       variables (client s') = Some ["time"; v] /\
       dataset_id (client s') = dataset_id (client s)) /\
  (forall s ms v,
     match_list tag id s = Return ms ->
     item0 ms = Return v ->
     exists s',
       loop_body tag id s = (Return tt, s') /\
       dataset_id (client s') = Some id /\
       variables (client s') = Some ["time"; v] /\
       In (EvInfo (with_dataset_id id (client s)) id tag) (history s') /\
       In (EvData (with_variables ["time"; v] (with_dataset_id id (client s))))
          (history s')).
Proof.
  split.
  - intros s ms v H H0. split.
    + destruct ms; simpl in *; congruence.
    + rewrite (resolve_variables_returns id tag s ms v H H0).
      eexists. split; [reflexivity|]. split; reflexivity.
  - intros s ms v H H0.
    destruct ms as [|v' rest]; simpl in H0; [discriminate|].
    inversion H0; subst v'.
    destruct (series tag id v s) as [ds|e] eqn:Hs.
    + destruct (loop_body_fetch_returns tag id s v rest ds H Hs) as (hv & -> & _).
      eexists. split; [reflexivity|]. simpl.
      repeat split; apply in_or_app; right; simpl; auto.
    + rewrite (loop_body_fetch_raises tag id s v rest e H Hs).
      eexists. split; [reflexivity|]. simpl.
      repeat split; apply in_or_app; right; simpl; auto.
Qed.






















(** A search is one request; its result is read off the answer to that
    request and off nothing else, and the only trace it leaves is the request
    in the history. *)
Lemma search_spec k s :
  search k s =
    (read_search (urlopen (history s) (search_url (client s) k)),
     log (EvUrlopen (search_url (client s) k)) s).
Proof.
  unfold search, search_url, read_search, search_columns.
  unfold bind, get_client, call_urlopen, lift, log. simpl.
  destruct (urlopen (history s) (get_search_url (client s) "csv" k)) as [body|e];
    [|reflexivity].
  destruct (read_csv body []) as [df|e]; [|reflexivity].
  destruct (select_columns _ df); reflexivity.
Qed.

(** C6.  Two searches with the same constraints on the same client, to which
    the service gives the same answer, have the same result: the same
    exception, or the same table with its rows in the same order.  Each of
    them makes its own request and leaves the client and the lists alone; and
    a table it returns has the rows of the answer, in the order of the answer,
    read at the three selected columns. *)
Theorem search_same_answer_same_result k s1 s2 :
  client s1 = client s2 ->
  urlopen (history s1) (search_url (client s1) k) =
  urlopen (history s2) (search_url (client s2) k) ->
  fst (search k s1) = fst (search k s2) /\
  snd (search k s1) = log (EvUrlopen (search_url (client s1) k)) s1 /\
  snd (search k s2) = log (EvUrlopen (search_url (client s2) k)) s2 /\
  (forall search_df,
     fst (search k s1) = Return search_df ->
     exists body df ps,
       urlopen (history s1) (search_url (client s1) k) = Return body /\
       read_csv body [] = Return df /\
       col_positions search_columns (columns df) = Return ps /\
       index search_df = index df /\
       rows search_df = map (fun r => map (fun i => at_pos i r) ps) (rows df)).
Proof.
  intros Hc Hu. rewrite !search_spec. simpl.
  split; [rewrite Hu; reflexivity|]. split; [reflexivity|]. split; [reflexivity|].
  intros search_df H. unfold read_search in H.
  destruct (urlopen (history s1) (search_url (client s1) k)) as [body|e];
    [|discriminate].
  destruct (read_csv body []) as [df|e] eqn:Er; [|discriminate].
  apply select_columns_rows in H as (ps & Hp & _ & Hi & Hr).
  exists body, df, ps. repeat split; auto.
Qed.

(** Counting all datasets is one request as well. *)
Lemma count_all_history s :
  history (snd (count_all s)) =
    history s ++ [EvUrlopen (search_url (client s) [("search_for", AStr "all")])].
Proof.
  unfold count_all, search_url, bind, get_client, call_urlopen, lift, ret, log.
  simpl.
  destruct (urlopen _ _) as [body|e]; [|reflexivity].
  destruct (read_csv body []); reflexivity.
Qed.

Lemma search_fails_raises k s e :
  search_fails k s e ->
  search k s = (Raise e, log (EvUrlopen (search_url (client s) k)) s).
Proof.
  intros H. rewrite search_spec. f_equal. unfold read_search.
  destruct H as [H|[(body & H & Hr)|(body & df & H & Hr & Hs)]]; rewrite H.
  - reflexivity.
  - rewrite Hr. reflexivity.
  - rewrite Hr. exact Hs.
Qed.

(** C3.  When the search request fails, or its answer is malformed, the
    search raises that very exception after its one request, with the client
    and the lists untouched and no table returned.  The half of the notebook
    it belongs to stops there with the same exception: nothing further is
    requested, so the loop over the datasets never starts. *)
Theorem search_failure_stops_notebook s e :
  search_fails kw s e ->
  search kw s = (Raise e, log (EvUrlopen (search_url (client s) kw)) s) /\
  notebook_ioos s = (Raise e, log (EvUrlopen (search_url (client s) kw)) s) /\
  (forall s0 n, count_all s0 = (Return n, s) ->
     notebook_ooi s0 = (Raise e, log (EvUrlopen (search_url (client s) kw)) s) /\
     filter is_fetch (history s) = filter is_fetch (history s0)) /\
  requests (history (log (EvUrlopen (search_url (client s) kw)) s)) =
    requests (history s) ++ [Open (search_url (client s) kw)] /\
  filter is_fetch (history (log (EvUrlopen (search_url (client s) kw)) s)) =
    filter is_fetch (history s).
Proof.
  intros H. pose proof (search_fails_raises kw s e H) as E.
  split; [exact E|]. split; [|split; [|split]].
  - unfold notebook_ioos. unfold bind at 1. rewrite E. reflexivity.
  - intros s0 n H0. split.
    + unfold notebook_ooi. unfold bind at 1. rewrite H0.
      unfold bind at 1. rewrite E. reflexivity.
    + pose proof (count_all_history s0) as Hh. rewrite H0 in Hh. simpl in Hh.
      rewrite Hh, filter_app. simpl. apply app_nil_r.
  - simpl. rewrite requests_app. reflexivity.
  - simpl. rewrite filter_app. simpl. apply app_nil_r.
Qed.

(** The template of [alllonlat] filled in. *)
Lemma append_empty_r (s : string) : (s ++ "")%string = s.
Proof. induction s as [|c s IH]; simpl; [|rewrite IH]; reflexivity. Qed.

Lemma alllonlat_template_format a b c d :
  format alllonlat_template [a; b; c; d] = Return (all_datasets_query a b c d).
Proof.
  unfold alllonlat_template, all_datasets_query.
  cbv -[String.append]. rewrite append_empty_r. reflexivity.
Qed.

(** [alllonlat] is one request to the URL of its template, printed first;
    its result is the answer to that request read as a table without line 1,
    or the exception that opening or reading raised. *)
Lemma alllonlat_spec e cdm tmin tmax s :
  let url := all_datasets_query (server e) cdm tmax tmin in
  alllonlat e cdm tmin tmax s =
    (match urlopen (history s ++ [EvPrint url]) url with
     | Raise x => Raise x
     | Return body => read_csv body [1]
     end,
     log (EvUrlopen url) (log (EvPrint url) s)).
Proof.
  unfold alllonlat. rewrite alllonlat_template_format.
  unfold bind, lift, print, call_urlopen, ret, log. simpl.
  destruct (urlopen _ _) as [body|x]; [|reflexivity].
  destruct (read_csv body [1]); reflexivity.
Qed.

(** C7.  [alllonlat], given a client, a category and the two bounds of a time
    window, makes one request, to the allDatasets table of the client's
    server with the columns datasetID, minLongitude, minLatitude and the
    constraints cdm_data_type = category, minTime <= max_time and
    maxTime >= min_time.  An exception raised by the request or by the
    reading of its answer is the result, as for the search.  When the service
    answers that query over its catalog as ERDDAP documents, the table
    returned has one row (identifier, minLongitude, minLatitude) per dataset
    of the category whose time coverage overlaps the window. *)
Theorem alllonlat_lists_anchor_points catalog e cdm tmin tmax s :
  let url := all_datasets_query (server e) cdm tmax tmin in
  let answer := urlopen (history s ++ [EvPrint url]) url in
  snd (alllonlat e cdm tmin tmax s) = log (EvUrlopen url) (log (EvPrint url) s) /\
  requests (history (snd (alllonlat e cdm tmin tmax s))) =
    requests (history s) ++ [Open url] /\
  (forall x, answer = Raise x -> fst (alllonlat e cdm tmin tmax s) = Raise x) /\
  (forall body, answer = Return body ->
     fst (alllonlat e cdm tmin tmax s) = read_csv body [1]) /\
  (forall body df,
     answer = Return body -> read_csv body [1] = Return df ->
     answers_query catalog cdm tmax tmin df ->
     fst (alllonlat e cdm tmin tmax s) = Return df /\
     columns df = ["datasetID"; "minLongitude"; "minLatitude"] /\
     rows df = map anchor (matching cdm tmin tmax catalog)).
Proof.
  intros url answer. rewrite alllonlat_spec. fold url. fold answer. simpl.
  split; [reflexivity|]. split.
  - rewrite !requests_app. simpl. rewrite <- app_assoc. reflexivity.
  - split; [|split].
    + intros x ->. reflexivity.
    + intros body ->. reflexivity.
    + intros body df -> Hr [Hc Hrows]. rewrite Hr.
      split; [reflexivity|]. split; [exact Hc|].
      rewrite Hrows. reflexivity.
Qed.

End Properties.

(* ------------------------------------------------------------------ *)
(** *** The cells run on the stand-ins *)

(** Of [A, B, C], the series of B cannot be read and every variable
    resolves: the loop returns with A and C, in that order. *)
Lemma fetch_loop_A_B_C :
  exists s',
    @fetch_loop world_fetch_B_fails standard_name ["A"; "B"; "C"] (initial ooi0)
      = (Return tt, s') /\
    df_list s' = ["A"; "C"] /\
    length (df_list s') = 2 /\
    2 <= 3 /\
    printed (history s') = ["A"; "C"] /\
    length (hv_list s') <= length (df_list s') /\
    (@plots_never_fail world_fetch_B_fails ->
     length (hv_list s') = length (df_list s')).
Proof.
  apply (proj2 (@fetch_loop_keeps_successes world_fetch_B_fails standard_name
                  ["A"; "B"; "C"] Mock.data_ABC (initial ooi0))).
  - intros h e id _. exists "sea_water_practical_salinity", []. reflexivity.
  - intros h e id _ H. simpl. rewrite H. reflexivity.
Defined.



(** C1, on the code.  Of [A, B, C], the series of all three can be read but
    B declares no variable with the standard name, so that A and C are the
    two descriptors that succeed.  The loop does not return: it raises
    IndexError at B, and [df_list] holds A alone, one dataset and not two;
    the dataset of C, which can be read, is not in it. *)
Theorem fetch_loop_loses_C_after_unresolved_B :
  @match_list world_B_unresolved standard_name "B" (initial ooi0) = Return [] /\
  @to_xarray world_B_unresolved [] (with_dataset_id "A" ooi0) = Return "A" /\
  @to_xarray world_B_unresolved [] (with_dataset_id "C" ooi0) = Return "C" /\
  fst (@fetch_loop world_B_unresolved standard_name ["A"; "B"; "C"] (initial ooi0))
    = Raise IndexError /\
  df_list (snd (@fetch_loop world_B_unresolved standard_name ["A"; "B"; "C"]
                  (initial ooi0))) = ["A"] /\
  length (df_list (snd (@fetch_loop world_B_unresolved standard_name
                          ["A"; "B"; "C"] (initial ooi0)))) = 1 /\
  printed (history (snd (@fetch_loop world_B_unresolved standard_name
                           ["A"; "B"; "C"] (initial ooi0)))) = ["A"].
Proof. vm_compute. repeat split. Qed.

(** C2, on the code.  Of [A, B, C], B declares no variable with the standard
    name: the loop does not pass over B but raises IndexError out of the
    cell, with A alone collected and C never asked for.  The same happens,
    with the error of the transport, when the metadata request for B fails. *)
Theorem fetch_loop_raises_at_unresolved :
  (fst (@fetch_loop world_B_unresolved standard_name ["A"; "B"; "C"] (initial ooi0))
     = Raise IndexError /\
   df_list (snd (@fetch_loop world_B_unresolved standard_name ["A"; "B"; "C"]
                   (initial ooi0))) = ["A"] /\
   requests (history (snd (@fetch_loop world_B_unresolved standard_name
                             ["A"; "B"; "C"] (initial ooi0))))
     = [Metadata "A"; Series (Some "A"); Metadata "B"]) /\
  (fst (@fetch_loop world_B_info_down standard_name ["A"; "B"; "C"] (initial ooi0))
     = Raise (HTTPError "B") /\
   df_list (snd (@fetch_loop world_B_info_down standard_name ["A"; "B"; "C"]
                   (initial ooi0))) = ["A"] /\
   requests (history (snd (@fetch_loop world_B_info_down standard_name
                             ["A"; "B"; "C"] (initial ooi0))))
     = [Metadata "A"; Series (Some "A"); Metadata "B"]).
Proof. repeat split. Qed.

(** C4 as first stated fails twice over.  On a dataset without a match no
    variable name is chosen: the iteration raises IndexError and the client's
    [variables] stay as they were, here unset.  And on a dataset that
    declares two variables with the standard name, [salinity] before
    [salinity_adjusted], index 0 of the match list need not be the one
    declared first: the library returns the matches in the order of a set of
    names, and the variable requested is [salinity_adjusted]. *)
Lemma index_0_is_not_the_first_declared :
  (@match_list world_B_unresolved standard_name "B" (initial ooi0) = Return [] /\
   fst (@loop_body world_B_unresolved standard_name "B" (initial ooi0))
     = Raise IndexError /\
   variables (client (snd (@loop_body world_B_unresolved standard_name "B"
                             (initial ooi0)))) = None) /\
  (first_declared standard_name Mock.declared_two = Some "salinity" /\
   @match_list world_unordered standard_name "A" (initial ooi0)
     = Return ["salinity_adjusted"; "salinity"] /\
   fst (@loop_body world_unordered standard_name "A" (initial ooi0)) = Return tt /\
   variables (client (snd (@loop_body world_unordered standard_name "A"
                             (initial ooi0))))
     = Some ["time"; "salinity_adjusted"]).
Proof. vm_compute. repeat split. Qed.

(** C4 (amended) on a dataset with two variables carrying the standard name:
    the first is requested. *)
Lemma two_matches_first_taken :
  nth_error ["sea_water_practical_salinity"; "sea_water_practical_salinity_qc"] 0
    = Some "sea_water_practical_salinity" /\
  exists s',
    @resolve_variables world_two_matches "A" standard_name (initial ooi0)
      = (Return tt, s') /\
    variables (client s') = Some ["time"; "sea_water_practical_salinity"] /\
    dataset_id (client s') = None.
Proof.
  apply (proj1 (@resolution_takes_index_0 world_two_matches standard_name "A")
           (initial ooi0)
           ["sea_water_practical_salinity"; "sea_water_practical_salinity_qc"]
           "sea_water_practical_salinity");
    reflexivity.
Defined.

(** C3 on a server that cannot be reached: the IOOS half stops at its first
    cell, after the one request. *)
Lemma unreachable_server_stops_ioos :
  fst (@notebook_ioos world_fetch_B_fails (initial ioos0))
    = Raise (HTTPError (ioos_server ++ "/search/advanced.csv")) /\
  requests (history (snd (@notebook_ioos world_fetch_B_fails (initial ioos0))))
    = [Open (ioos_server ++ "/search/advanced.csv")%string].
Proof.
  assert (F : @search_fails world_fetch_B_fails kw (initial ioos0)
                 (HTTPError (ioos_server ++ "/search/advanced.csv")))
    by (left; reflexivity).
  pose proof (@search_failure_stops_notebook world_fetch_B_fails (initial ioos0)
                (HTTPError (ioos_server ++ "/search/advanced.csv")) F)
    as (_ & H & _).
  rewrite H. split; reflexivity.
Defined.


(** C6: searching twice in a row on the server that answers. *)
Lemma search_twice_online :
  fst (@search world_online kw (initial ooi0)) =
  fst (@search world_online kw (snd (@search world_online kw (initial ooi0)))).
Proof.
  apply (@search_same_answer_same_result world_online kw (initial ooi0)
           (snd (@search world_online kw (initial ooi0)))).
  - reflexivity.
  - reflexivity.
Defined.

(** C7: the stations of the notebook's window on the server that answers; of
    the four datasets of the catalog, the two time series that overlap it. *)
Lemma alllonlat_online :
  fst (@alllonlat world_online ooi0 "TimeSeries" min_time max_time (initial ooi0))
    = Return {| columns := ["datasetID"; "minLongitude"; "minLatitude"];
                index := [0; 1];
                rows := [ [CStr "ooi-ce01issm-sbd17-06-ctdbpc000"; CInt (-124); CInt 44];
                          [CStr "ooi-ce06issm-sbd17-06-ctdbpc000"; CInt (-124); CInt 47] ] |}
  /\
  ["datasetID"; "minLongitude"; "minLatitude"]
    = ["datasetID"; "minLongitude"; "minLatitude"] /\
  [ [CStr "ooi-ce01issm-sbd17-06-ctdbpc000"; CInt (-124); CInt 44];
    [CStr "ooi-ce06issm-sbd17-06-ctdbpc000"; CInt (-124); CInt 47] ]
    = map anchor (matching "TimeSeries" min_time max_time Mock.catalog).
Proof.
  apply (proj2 (proj2 (proj2 (proj2
           (@alllonlat_lists_anchor_points world_online Mock.catalog ooi0
              "TimeSeries" min_time max_time (initial ooi0)))))
           Mock.lonlat_table).
  - reflexivity.
  - reflexivity.
  - split; reflexivity.
Defined.

(** C9: after a loop over A and C the client points at C. *)
Lemma client_after_A_C :
  exists s1 v rest,
    @fetch_loop world_fetch_B_fails standard_name ["A"] (initial ooi0)
      = (Return tt, s1) /\
    @match_list world_fetch_B_fails standard_name "C" s1 = Return (v :: rest) /\
    dataset_id (client (snd (@fetch_loop world_fetch_B_fails standard_name
                               ["A"; "C"] (initial ooi0)))) = Some "C" /\
    variables (client (snd (@fetch_loop world_fetch_B_fails standard_name
                              ["A"; "C"] (initial ooi0))))
      = Some ["time"; v].
Proof.
  apply (proj2 (proj2 (proj2
           (@fetch_loop_mutates_id_and_variables world_fetch_B_fails standard_name)))
           ["A"] "C" (initial ooi0)).
  vm_compute. reflexivity.
Defined.

End ErddapFacts.

(* ================================================================== *)
(** ** Properties of notebook 06 *)
(* ================================================================== *)

Module BathyFacts.
Import Bathy.
Open Scope float_scope.

Lemma where_data_map (p : float -> bool) vs :
  where_data vs (map p vs) = map (fun v => if p v then v else nan) vs.
Proof.
  induction vs as [|v vs IH]; simpl; [reflexivity|]. rewrite IH. reflexivity.
Qed.

Lemma mask_land_and_deep_data na :
  data (mask_land_and_deep na) = map masked (data na).
Proof.
  unfold mask_land_and_deep, where_, gt, lt. simpl.
  rewrite where_data_map, where_data_map, map_map. reflexivity.
Qed.

Lemma masked_retained x :
  is_nan (masked x) = false ->
  masked x = x /\ PrimFloat.ltb (-1000) x = true /\ PrimFloat.ltb x 0 = true.
Proof.
  unfold masked.
  destruct (PrimFloat.ltb x 0) eqn:H0.
  - destruct (PrimFloat.ltb (-1000) x) eqn:H1.
    + intros _. repeat split.
    + intros H. vm_compute in H. discriminate.
  - intros H. vm_compute in H. discriminate.
Qed.

Lemma masked_dropped x :
  x = (-1000) \/ PrimFloat.ltb x 0 = false \/ PrimFloat.ltb (-1000) x = false ->
  is_nan (masked x) = true.
Proof.
  unfold masked. intros [->|[H|H]].
  - reflexivity.
  - rewrite H. reflexivity.
  - destruct (PrimFloat.ltb x 0); [rewrite H|]; reflexivity.
Qed.

(** C10.  After the two masking steps the array has the dimensions, the
    coordinates and the shape it had, and as many values.  A value that is
    not missing is the value the array had at that place, and it lies
    strictly between -1000 and 0.  A value that was -1000, or not below 0, or
    not above -1000, is missing. *)
Theorem mask_keeps_between_minus_1000_and_0 na :
  dims (mask_land_and_deep na) = dims na /\
  coords (mask_land_and_deep na) = coords na /\
  shape (mask_land_and_deep na) = shape na /\
  length (data (mask_land_and_deep na)) = length (data na) /\
  (forall i v,
     nth_error (data (mask_land_and_deep na)) i = Some v ->
     is_nan v = false ->
     nth_error (data na) i = Some v /\
     PrimFloat.ltb (-1000) v = true /\ PrimFloat.ltb v 0 = true) /\
  (forall i x,
     nth_error (data na) i = Some x ->
     x = (-1000) \/ PrimFloat.ltb x 0 = false \/ PrimFloat.ltb (-1000) x = false ->
     exists v, nth_error (data (mask_land_and_deep na)) i = Some v /\
               is_nan v = true).
Proof.
  rewrite mask_land_and_deep_data.
  split; [reflexivity|]. split; [reflexivity|]. split; [reflexivity|].
  split; [apply length_map|]. split.
  - intros i v Hv Hn. rewrite nth_error_map in Hv.
    destruct (nth_error (data na) i) as [x|]; simpl in Hv; [|discriminate].
    inversion Hv; subst v.
    destruct (masked_retained x Hn) as (E & H1 & H0).
    rewrite E. auto.
  - intros i x Hx H. exists (masked x). split.
    + rewrite nth_error_map, Hx. reflexivity.
    + apply masked_dropped. exact H.
Qed.

(** A strip of sea floor and shore: 12.5 (land), -3.25, -1000, -999.5,
    -4231 (deep), 0. *)
Example mask_strip :
  data (mask_land_and_deep
          {| dims := ["lat"; "lon"];
             coords := [("lat", [15]); ("lon", [-130; -129; -128; -127; -126; -125])];
             shape := [1; 6]%nat;
             data := [12.5; -3.25; -1000; -999.5; -4231; 0] |})
  = [nan; -3.25; nan; -999.5; nan; nan].
Proof. reflexivity. Qed.

End BathyFacts.

(* ================================================================== *)
(** ** Further properties of notebook 05 *)
(* ================================================================== *)

Module ErddapExtras.
Import Erddap ErddapFacts Runs.

(* ------------------------------------------------------------------ *)
(** *** More facts about frames *)

Lemma keep_by_test {A} (p : A -> bool) (xs : list A) :
  keep (map p xs) xs = filter p xs.
Proof.
  induction xs as [|x xs IH]; simpl; [reflexivity|].
  rewrite IH. destruct (p x); reflexivity.
Qed.

Lemma keep_length {A B} (bs : list bool) : forall (xs : list A) (ys : list B),
  length xs = length ys -> length (keep bs xs) = length (keep bs ys).
Proof.
  induction bs as [|b bs IH]; intros [|x xs] [|y ys] H; simpl in *;
    try reflexivity; try discriminate.
  injection H as H. destruct b; simpl; auto.
Qed.

Lemma map_snd_combine {A B} (xs : list A) : forall (ys : list B),
  length xs = length ys -> map snd (combine xs ys) = ys.
Proof.
  induction xs as [|x xs IH]; intros [|y ys] H; simpl in *;
    try reflexivity; try discriminate.
  injection H as H. rewrite IH; auto.
Qed.

(** On a column of text the test of [str.contains] has an answer for every
    cell. *)
Lemma all_bool_text pat col :
  forallb is_text col = true ->
  all_bool (str_contains pat col)
    = Some (map (fun c => contains pat (cell_str c)) col).
Proof.
  induction col as [|c col IH]; simpl; [reflexivity|].
  intros H. apply andb_prop in H as [Hc H].
  destruct c; try discriminate. simpl. rewrite (IH H). reflexivity.
Qed.

(** pandas has the string methods of a column of text, and of any column
    that holds some text. *)
Lemma str_accessor_some_text col t :
  In (CStr t) col -> str_accessor col = Return col.
Proof.
  intros Hin. unfold str_accessor. destruct col as [|c col]; [destruct Hin|].
  assert (E : existsb (fun c => match c with CStr _ => true | _ => false end)
                      (c :: col) = true).
  { apply existsb_exists. exists (CStr t). split; [exact Hin|reflexivity]. }
  rewrite E. reflexivity.
Qed.

Lemma str_accessor_text col :
  forallb is_text col = true -> str_accessor col = Return col.
Proof.
  destruct col as [|c col]; [reflexivity|]. intros H.
  simpl in H. apply andb_prop in H as [Hc _].
  destruct c; try discriminate.
  apply (str_accessor_some_text _ s). left. reflexivity.
Qed.

(** It has none for a column that holds a cell but no text. *)
Lemma str_accessor_no_text col c :
  In c col -> existsb is_text col = false ->
  str_accessor col
    = Raise (AttributeError "Can only use .str accessor with string values!").
Proof.
  intros Hin H. unfold str_accessor. destruct col as [|c' col]; [destruct Hin|].
  unfold is_text in H. rewrite H. reflexivity.
Qed.

(** One cell that is not text leaves the mask with a missing entry. *)
Lemma all_bool_not_text pat col c :
  In c col -> is_text c = false -> all_bool (str_contains pat col) = None.
Proof.
  induction col as [|c' col IH]; simpl; [intros []|].
  intros [->|Hin] Hc.
  - destruct c; try discriminate; reflexivity.
  - destruct c'; try reflexivity. rewrite (IH Hin Hc). reflexivity.
Qed.

Lemma all_bool_isin ids wanted :
  all_bool (isin ids wanted) = Some (map (listed wanted) ids).
Proof.
  induction ids as [|c ids IH]; simpl; [reflexivity|].
  rewrite IH. reflexivity.
Qed.

Lemma col_pos_none c cols : col_pos c cols = None <-> ~ In c cols.
Proof.
  induction cols as [|c' cols IH]; simpl.
  - split; [intros _ []|reflexivity].
  - destruct (String.eqb c c') eqn:E.
    + apply String.eqb_eq in E. subst c'. split; [discriminate|].
      intros H. exfalso. apply H. left. reflexivity.
    + apply String.eqb_neq in E. split.
      * intros H. destruct (col_pos c cols); [discriminate|].
        intros [H1|H1]; [congruence|]. apply IH; auto.
      * intros H. destruct (col_pos c cols) eqn:Ec; [|reflexivity].
        exfalso. apply H. right.
        destruct (in_dec string_dec c cols) as [Hi|Hi]; [exact Hi|].
        apply IH in Hi. discriminate.
Qed.

(** A column that is not in the frame is a KeyError; one that is can be
    read. *)
Lemma column_key_error c df :
  ~ In c (columns df) -> column c df = Raise (KeyError c).
Proof.
  intros H. unfold column. apply col_pos_none in H. rewrite H. reflexivity.
Qed.

(** The column of a masked frame is the masked column. *)
Lemma column_of_mask_rows c mask bs df df' :
  all_bool mask = Some bs ->
  mask_rows mask df = Return df' ->
  well_formed df ->
  columns df' = columns df /\
  well_formed df' /\
  rows df' = keep bs (rows df) /\
  (forall col, column c df = Return col -> column c df' = Return (keep bs col)) /\
  (forall e, column c df = Raise e -> column c df' = Raise e).
Proof.
  unfold mask_rows, column, well_formed. intros Hb Hm Hw. rewrite Hb in Hm.
  inversion Hm; subst df'; simpl.
  split; [reflexivity|]. split; [apply keep_length; exact Hw|].
  split; [reflexivity|].
  destruct (col_pos c (columns df)) as [i|]; split; intros ? H;
    inversion H; subst; try reflexivity.
  rewrite keep_map. reflexivity.
Qed.

(** Renumbering the rows of a frame with one label per row leaves its other
    columns as they are. *)
Lemma column_of_reset_index c df :
  c <> "index" -> c <> "level_0" -> well_formed df ->
  column c (reset_index df) = column c df /\
  len (reset_index df) = len df /\
  index (reset_index df) = seq 0 (len df) /\
  well_formed (reset_index df).
Proof.
  unfold column, reset_index, well_formed, len. intros H1 H2 Hw.
  apply String.eqb_neq in H1, H2. cbn [columns rows index col_pos].
  assert (Hl : length (map (fun ir : nat * list cell =>
                              CInt (Z.of_nat (fst ir)) :: snd ir)
                           (combine (index df) (rows df))) = length (rows df)).
  { rewrite length_map, length_combine, Hw. apply Nat.min_id. }
  split; [|split; [exact Hl|split; [reflexivity|]]].
  - assert (E : String.eqb c
                  (if existsb (String.eqb "index") (columns df)
                   then "level_0" else "index") = false)
      by (destruct (existsb _ _); assumption).
    rewrite E.
    destruct (col_pos c (columns df)) as [i|]; simpl; [|reflexivity].
    rewrite map_map. simpl. f_equal.
    rewrite <- (map_snd_combine (index df) (rows df) Hw) at 2.
    rewrite map_map. reflexivity.
  - rewrite length_seq. symmetry. exact Hl.
Qed.

Lemma cell_eqb_eq a b : cell_eqb a b = true -> a = b.
Proof.
  destruct a, b; simpl; try discriminate; intros H.
  - apply String.eqb_eq in H. congruence.
  - apply Z.eqb_eq in H. congruence.
  - reflexivity.
Qed.

Lemma listed_in wanted c : listed wanted c = true -> In c wanted.
Proof.
  unfold listed. intros H. apply existsb_exists in H as (x & Hx & E).
  apply cell_eqb_eq in E. subst x. exact Hx.
Qed.

(** The position a selected column is read at is the position it has in the
    frame. *)
Lemma col_positions_nth c cs cols ps n :
  col_positions cs cols = Return ps ->
  col_pos c cs = Some n ->
  exists j, col_pos c cols = Some j /\ nth_error ps n = Some j.
Proof.
  revert ps n. induction cs as [|c' cs IH]; intros ps n Hp Hn; simpl in *;
    [discriminate|].
  destruct (col_pos c' cols) as [i|] eqn:Ei; [|discriminate].
  destruct (col_positions cs cols) as [ps'|]; [|discriminate].
  inversion Hp; subst ps.
  destruct (String.eqb c c') eqn:E.
  - apply String.eqb_eq in E. subst c'. inversion Hn; subst n.
    exists i. split; [exact Ei|reflexivity].
  - destruct (col_pos c cs) as [n'|]; [|discriminate].
    inversion Hn; subst n. simpl. apply (IH ps' n'); reflexivity.
Qed.

Lemma col_pos_some c cs : In c cs -> exists n, col_pos c cs = Some n.
Proof.
  intros H. destruct (col_pos c cs) as [n|] eqn:E; [eauto|].
  apply col_pos_none in E. contradiction.
Qed.

(** A selected column holds what it held in the frame. *)
Lemma column_of_select_columns c cs df df' :
  select_columns cs df = Return df' -> In c cs ->
  column c df' = column c df.
Proof.
  intros Hs Hin.
  destruct (select_columns_rows cs df df' Hs) as (ps & Hp & Hc & _ & Hr).
  destruct (col_pos_some c cs Hin) as (n & Hn).
  destruct (col_positions_nth c cs (columns df) ps n Hp Hn) as (j & Hj & Hnth).
  unfold column. rewrite Hc, Hn, Hj, Hr, map_map. f_equal.
  apply map_ext. intros r. unfold at_pos at 1.
  apply nth_error_nth. rewrite nth_error_map, Hnth. reflexivity.
Qed.

(** Selecting columns fails on the first listed column the frame lacks, and
    only then. *)
Lemma col_positions_raises cs cols e :
  col_positions cs cols = Raise e ->
  exists c, e = KeyError c /\ In c cs /\ ~ In c cols.
Proof.
  induction cs as [|c cs IH]; simpl; [discriminate|].
  destruct (col_pos c cols) as [i|] eqn:Ei.
  - destruct (col_positions cs cols) as [ps|e'] eqn:Ep; [discriminate|].
    intros H. inversion H; subst e'.
    destruct (IH eq_refl) as (c' & -> & Hin & Hn). exists c'. auto.
  - intros H. inversion H. exists c. split; [reflexivity|].
    split; [left; reflexivity|apply col_pos_none; exact Ei].
Qed.

Lemma col_positions_returns cs cols :
  (forall c, In c cs -> In c cols) -> exists ps, col_positions cs cols = Return ps.
Proof.
  induction cs as [|c cs IH]; simpl; intros H; [eauto|].
  destruct (col_pos_some c cols (H c (or_introl eq_refl))) as (i & ->).
  destruct IH as (ps & ->); [intros; apply H; right; assumption|].
  eauto.
Qed.

Section Cells.
Context {X : External}.

Ltac unfold_cells :=
  unfold fetch_loop, loop_body, fetch_one, resolve_variables, variables_last,
         read_one, search, count_all, select_ctdbp, alllonlat, stations,
         new_lists, df_list_append, hv_list_append, call_to_xarray,
         call_get_var_by_attr, call_urlopen, print, get_client, set_client,
         try_pass, lift, bind, ret, log; simpl.

(* ------------------------------------------------------------------ *)
(** *** The manual cell *)

(** The manual cell when the match list has an entry at index 0. *)
Lemma read_one_resolved id tag t0 t1 s v rest :
  let c0 := configured id t0 t1 (client s) in
  let c1 := with_variables ["time"; v] c0 in
  get_var_by_attr (history s) c0 id tag = Return (v :: rest) ->
  read_one id tag t0 t1 s =
    (to_xarray (history s ++ [EvInfo c0 id tag; EvPrint (get_download_url c1)]) c1,
     {| history := history s ++ [EvInfo c0 id tag; EvPrint (get_download_url c1);
                                 EvData c1];
        client := c1; df_list := df_list s; hv_list := hv_list s |}).
Proof.
  intros c0 c1 H. subst c0 c1.
  unfold configured, window, with_response, with_constraints, with_dataset_id,
         with_variables in *.
  unfold read_one. unfold_cells.
  unfold with_response, with_constraints, with_dataset_id, with_variables. simpl.
  simpl in H. rewrite H. simpl.
  repeat rewrite <- app_assoc. reflexivity.
Qed.

(** The manual cell when the variable cannot be resolved. *)
Lemma read_one_unresolved id tag t0 t1 s e :
  let c0 := configured id t0 t1 (client s) in
  get_var_by_attr (history s) c0 id tag = Raise e \/
  get_var_by_attr (history s) c0 id tag = Return [] /\ e = IndexError ->
  read_one id tag t0 t1 s =
    (Raise e,
     {| history := history s ++ [EvInfo c0 id tag];
        client := c0; df_list := df_list s; hv_list := hv_list s |}).
Proof.
  intros c0 H. subst c0.
  unfold configured, window, with_response, with_constraints, with_dataset_id in *.
  unfold read_one. unfold_cells.
  unfold with_response, with_constraints, with_dataset_id. simpl. simpl in H.
  destruct H as [H|[H ->]]; rewrite H; reflexivity.
Qed.

(** X1.  The manual cell, for a dataset with a variable of the standard name:
    it asks for the metadata and then for the series, and for nothing else;
    the series request is made with the client pointed at the dataset,
    restricted to the time window, answering in CSV and asking for [time] and
    the variable at index 0 of the match list, and the client stays so
    configured.  What the series request answers is the result of the cell:
    unlike in the loop, an exception of the download is not caught. *)
Theorem read_one_requests_the_window id tag t0 t1 s ms v :
  get_var_by_attr (history s) (configured id t0 t1 (client s)) id tag = Return ms ->
  item0 ms = Return v ->
  exists h c,
    fst (read_one id tag t0 t1 s) = to_xarray h c /\
    client (snd (read_one id tag t0 t1 s)) = c /\
    series_clients (history (snd (read_one id tag t0 t1 s)))
      = series_clients (history s) ++ [c] /\
    requests (history (snd (read_one id tag t0 t1 s)))
      = requests (history s) ++ [Metadata id; Series (Some id)] /\
    server c = server (client s) /\ protocol c = protocol (client s) /\
    dataset_id c = Some id /\
    variables c = Some ["time"; v] /\
    constraints c = Some [("time>=", t0); ("time<=", t1)] /\
    response c = "csv" /\
    df_list (snd (read_one id tag t0 t1 s)) = df_list s /\
    hv_list (snd (read_one id tag t0 t1 s)) = hv_list s.
Proof.
  intros H H0. destruct ms as [|v' rest]; simpl in H0; [discriminate|].
  inversion H0; subst v'.
  rewrite (read_one_resolved id tag t0 t1 s v rest H). simpl.
  do 2 eexists. split; [reflexivity|]. split; [reflexivity|].
  unfold series_clients, requests. rewrite !flat_map_app. simpl.
  repeat split; reflexivity.
Qed.

(** X2.  The manual cell, for a dataset whose variable cannot be resolved
    (the metadata request fails, or no variable carries the standard name):
    the exception leaves the cell after the one metadata request, nothing is
    printed and no series is asked for; the identifier, the constraints and
    the response format have been assigned all the same, and the variables are
    those of before. *)
Theorem read_one_unresolved_leaves_client_half_set id tag t0 t1 s e :
  get_var_by_attr (history s) (configured id t0 t1 (client s)) id tag = Raise e \/
  get_var_by_attr (history s) (configured id t0 t1 (client s)) id tag = Return [] /\
    e = IndexError ->
  fst (read_one id tag t0 t1 s) = Raise e /\
  requests (history (snd (read_one id tag t0 t1 s)))
    = requests (history s) ++ [Metadata id] /\
  printed (history (snd (read_one id tag t0 t1 s))) = printed (history s) /\
  dataset_id (client (snd (read_one id tag t0 t1 s))) = Some id /\
  constraints (client (snd (read_one id tag t0 t1 s)))
    = Some [("time>=", t0); ("time<=", t1)] /\
  response (client (snd (read_one id tag t0 t1 s))) = "csv" /\
  variables (client (snd (read_one id tag t0 t1 s))) = variables (client s).
Proof.
  intros H. rewrite (read_one_unresolved id tag t0 t1 s e H). simpl.
  rewrite requests_app, printed_app. simpl. rewrite app_nil_r.
  repeat split; reflexivity.
Qed.

(* ------------------------------------------------------------------ *)
(** *** The cells that filter a table *)

(** The CTDBP cell on a table with one label per row and text identifiers. *)
Lemma select_ctdbp_exact search_df s col :
  well_formed search_df ->
  column "Dataset ID" search_df = Return col ->
  forallb is_text col = true ->
  exists ctdbp,
    select_ctdbp search_df s
      = (Return ctdbp, log (EvPrint (str_of_nat (length (filter has_ctdbp col)))) s) /\
    column "Dataset ID" ctdbp = Return (filter has_ctdbp col) /\
    len ctdbp = length (filter has_ctdbp col) /\
    index ctdbp = seq 0 (len ctdbp) /\
    well_formed ctdbp.
Proof.
  intros Hw Hc Ht.
  pose proof (all_bool_text "ctdbp" col Ht) as Hb.
  unfold select_ctdbp, bind, lift, print, ret.
  rewrite Hc, (str_accessor_text col Ht).
  destruct (mask_rows (str_contains "ctdbp" col) search_df) as [df|e] eqn:Hm;
    [|unfold mask_rows in Hm; rewrite Hb in Hm; discriminate].
  destruct (column_of_mask_rows "Dataset ID" _ _ _ _ Hb Hm Hw)
    as (_ & Hw' & Hr & Hcol & _).
  destruct (column_of_reset_index "Dataset ID" df) as (Hci & Hl & Hi & Hwr);
    [discriminate|discriminate|exact Hw'|].
  assert (Hk : keep (map (fun c => contains "ctdbp" (cell_str c)) col) col
               = filter has_ctdbp col).
  { apply keep_by_test. }
  assert (Hlen : len (reset_index df) = length (filter has_ctdbp col)).
  { rewrite Hl. unfold len. rewrite Hr, <- Hk.
    unfold column in Hc.
    destruct (col_pos "Dataset ID" (columns search_df)) as [i|]; [|discriminate].
    inversion Hc. rewrite keep_map, length_map. reflexivity. }
  exists (reset_index df). cbv zeta. rewrite Hlen.
  split; [reflexivity|]. split.
  - rewrite Hci, (Hcol col Hc), Hk. reflexivity.
  - split; [reflexivity|]. split; [rewrite Hi, <- Hl, Hlen; reflexivity|exact Hwr].
Qed.


(** X3.  The CTDBP cell, on a search table with one label per row whose
    identifiers are all text: it returns, it prints the number of rows kept,
    and the identifiers of the table it returns are exactly those of the
    search table that contain "ctdbp", in the order of the search table; its
    rows are numbered afresh from 0. *)
Theorem select_ctdbp_keeps_matching search_df s col :
  well_formed search_df ->
  column "Dataset ID" search_df = Return col ->
  forallb is_text col = true ->
  exists ctdbp,
    select_ctdbp search_df s
      = (Return ctdbp, log (EvPrint (str_of_nat (length (filter has_ctdbp col)))) s) /\
    column "Dataset ID" ctdbp = Return (filter has_ctdbp col) /\
    len ctdbp = length (filter has_ctdbp col) /\
    index ctdbp = seq 0 (len ctdbp) /\
    well_formed ctdbp.
Proof. apply select_ctdbp_exact. Qed.

(** X4.  The CTDBP cell fails, with nothing printed and nothing changed:
    with KeyError when the search table has no [Dataset ID] column; with
    AttributeError when that column holds cells but no text, numbers or
    missing values only, for which pandas has no string methods; and with
    ValueError when the column holds text and also a cell that is not text,
    so that the mask has a missing entry. *)
Theorem select_ctdbp_fails_on_bad_table search_df s :
  (~ In "Dataset ID" (columns search_df) ->
   select_ctdbp search_df s = (Raise (KeyError "Dataset ID"), s)) /\
  (forall col c,
     column "Dataset ID" search_df = Return col ->
     In c col -> existsb is_text col = false ->
     select_ctdbp search_df s
       = (Raise (AttributeError "Can only use .str accessor with string values!"),
          s)) /\
  (forall col t c,
     column "Dataset ID" search_df = Return col ->
     In (CStr t) col -> In c col -> is_text c = false ->
     select_ctdbp search_df s
       = (Raise (ValueError
                   "Cannot mask with non-boolean array containing NA / NaN values"),
          s)).
Proof.
  split; [|split].
  - intros H. unfold select_ctdbp, bind, lift.
    rewrite (column_key_error _ _ H). reflexivity.
  - intros col c Hc Hin Ht. unfold select_ctdbp, bind, lift.
    rewrite Hc, (str_accessor_no_text col c Hin Ht). reflexivity.
  - intros col t c Hc Hs Hin Ht. unfold select_ctdbp, bind, lift.
    rewrite Hc, (str_accessor_some_text col t Hs).
    unfold mask_rows. rewrite (all_bool_not_text "ctdbp" col c Hin Ht).
    reflexivity.
Qed.

(** X5.  The stations cell, when both tables have their identifier column: it
    returns, with no request and nothing changed, the rows of the allDatasets
    table whose identifier is one of the search table, in their order and
    with their labels; every identifier it keeps is an identifier of both
    tables. *)
Theorem stations_keeps_listed dfll search_df s ids wanted :
  well_formed dfll ->
  column "datasetID" dfll = Return ids ->
  column "Dataset ID" search_df = Return wanted ->
  exists dfr,
    stations dfll search_df s = (Return dfr, s) /\
    columns dfr = columns dfll /\
    rows dfr = keep (map (listed wanted) ids) (rows dfll) /\
    column "datasetID" dfr = Return (filter (listed wanted) ids) /\
    (forall c, In c (filter (listed wanted) ids) -> In c ids /\ In c wanted).
Proof.
  intros Hw Hi Hs. unfold stations, bind, lift. rewrite Hi, Hs.
  pose proof (all_bool_isin ids wanted) as Hb.
  destruct (mask_rows (isin ids wanted) dfll) as [dfr|e] eqn:Hm;
    [|unfold mask_rows in Hm; rewrite Hb in Hm; discriminate].
  destruct (column_of_mask_rows "datasetID" _ _ _ _ Hb Hm Hw)
    as (Hc & _ & Hr & Hcol & _).
  exists dfr. split; [reflexivity|]. split; [exact Hc|]. split; [exact Hr|].
  split.
  - rewrite (Hcol ids Hi). f_equal. apply keep_by_test.
  - intros c H. apply filter_In in H as [H1 H2].
    split; [exact H1|apply listed_in; exact H2].
Qed.

(** X6.  A search that returns gives a table with exactly the columns
    Institution, Dataset ID and tabledap, in that order, with the row labels
    of the answer, three cells in every row, and in each of the three columns
    what the answer of the service had in the column of that name. *)
Theorem search_keeps_the_three_columns k s search_df :
  fst (search k s) = Return search_df ->
  exists body df,
    urlopen (history s) (search_url (client s) k) = Return body /\
    read_csv body [] = Return df /\
    columns search_df = ["Institution"; "Dataset ID"; "tabledap"] /\
    index search_df = index df /\
    len search_df = len df /\
    Forall (fun r => length r = 3) (rows search_df) /\
    (forall c, In c ["Institution"; "Dataset ID"; "tabledap"] ->
       column c search_df = column c df).
Proof.
  rewrite search_spec. simpl. unfold read_search. intros H.
  destruct (urlopen (history s) (search_url (client s) k)) as [body|e];
    [|discriminate].
  destruct (read_csv body []) as [df|e] eqn:Er; [|discriminate].
  destruct (select_columns_rows _ _ _ H) as (ps & Hp & Hc & Hi & Hr).
  exists body, df. split; [reflexivity|]. split; [exact Er|].
  split; [exact Hc|]. split; [exact Hi|]. split.
  - unfold len. rewrite Hr. apply length_map.
  - split.
    + rewrite Hr. apply Forall_forall. intros r Hin.
      apply in_map_iff in Hin as (r0 & <- & _). rewrite length_map.
      unfold search_columns in Hp. simpl in Hp.
      destruct (col_pos "Institution" (columns df)); [|discriminate].
      destruct (col_pos "Dataset ID" (columns df)); [|discriminate].
      destruct (col_pos "tabledap" (columns df)); [|discriminate].
      inversion Hp. reflexivity.
    + intros c Hin. apply (column_of_select_columns c _ _ _ H Hin).
Qed.

(** X7.  On an answer that can be read as a table, the search returns when
    the table has the three columns, and otherwise raises KeyError for one of
    the three that the table lacks; it raises nothing else. *)
Theorem search_key_error_on_missing_column k s body df :
  urlopen (history s) (search_url (client s) k) = Return body ->
  read_csv body [] = Return df ->
  ((forall c, In c ["Institution"; "Dataset ID"; "tabledap"] -> In c (columns df)) ->
   exists search_df, fst (search k s) = Return search_df) /\
  (forall e, fst (search k s) = Raise e ->
     exists c, e = KeyError c /\
               In c ["Institution"; "Dataset ID"; "tabledap"] /\
               ~ In c (columns df)).
Proof.
  intros Hu Hr. rewrite search_spec. simpl. unfold read_search.
  rewrite Hu, Hr. unfold select_columns, search_columns. split.
  - intros H.
    destruct (col_positions_returns ["Institution"; "Dataset ID"; "tabledap"]
                (columns df) H) as (ps & ->).
    eauto.
  - intros e H.
    destruct (col_positions _ (columns df)) as [ps|e'] eqn:Ep; [discriminate|].
    inversion H; subst e'. apply (col_positions_raises _ _ _ Ep).
Qed.

(* ------------------------------------------------------------------ *)
(** *** More on the loop *)

Lemma series_clients_app h1 h2 :
  series_clients (h1 ++ h2) = series_clients h1 ++ series_clients h2.
Proof. apply flat_map_app. Qed.

(** The series request of an iteration, if it makes one, is made with the
    configuration the client had, for the dataset of the iteration and for
    [time] and one variable. *)
Lemma loop_body_series tag id s :
  exists evs,
    history (snd (loop_body tag id s)) = history s ++ evs /\
    Forall (fun e => same_configuration e (client s) /\
                     dataset_id e = Some id /\
                     exists v, variables e = Some ["time"; v])
           (series_clients evs).
Proof.
  destruct (match_list tag id s) as [[|v rest]|e] eqn:Hm.
  - rewrite (loop_body_no_match tag id s Hm). eexists. split; [reflexivity|].
    simpl. constructor.
  - destruct (series tag id v s) as [ds|e] eqn:Hs.
    + rewrite (loop_body_fetch_plots tag id s v rest ds Hm Hs).
      eexists. split; [reflexivity|]. simpl.
      constructor; [|constructor].
      split; [repeat split|]. split; [reflexivity|]. exists v. reflexivity.
    + rewrite (loop_body_fetch_raises tag id s v rest e Hm Hs).
      eexists. split; [reflexivity|]. simpl.
      constructor; [|constructor].
      split; [repeat split|]. split; [reflexivity|]. exists v. reflexivity.
  - rewrite (loop_body_info_raises tag id s e Hm). eexists. split; [reflexivity|].
    simpl. constructor.
Qed.

Lemma for_each_series tag ids : forall s,
  exists evs,
    history (snd (for_each ids (loop_body tag) s)) = history s ++ evs /\
    Forall (fun e => same_configuration e (client s) /\
                     exists id v, In id ids /\ dataset_id e = Some id /\
                                  variables e = Some ["time"; v])
           (series_clients evs).
Proof.
  induction ids as [|id ids IH]; intros s.
  - exists []. simpl. rewrite app_nil_r. split; [reflexivity|constructor].
  - simpl for_each. unfold bind.
    destruct (loop_body_series tag id s) as (evs1 & H1 & F1).
    pose proof (loop_body_frame tag id s) as Hf.
    assert (F1' : Forall (fun e => same_configuration e (client s) /\
                     exists id0 v, In id0 (id :: ids) /\ dataset_id e = Some id0 /\
                                   variables e = Some ["time"; v])
                         (series_clients evs1)).
    { eapply Forall_impl; [|exact F1]. intros e (Hc & Hd & v & Hv).
      split; [exact Hc|]. exists id, v. simpl. auto. }
    destruct (loop_body tag id s) as [[[]|e] s1]; simpl in *.
    + destruct (IH s1) as (evs2 & H2 & F2).
      exists (evs1 ++ evs2). split; [rewrite H2, H1, app_assoc; reflexivity|].
      rewrite series_clients_app. apply Forall_app. split; [exact F1'|].
      eapply Forall_impl; [|exact F2]. intros e (Hc & id0 & v & Hin & Hd & Hv).
      split; [eapply same_configuration_trans; eassumption|].
      exists id0, v. auto.
    + exists evs1. auto.
Qed.

Lemma fetch_loop_series tag ids s :
  exists evs,
    history (snd (fetch_loop tag ids s)) = history s ++ evs /\
    Forall (fun e => same_configuration e (client s) /\
                     exists id v, In id ids /\ dataset_id e = Some id /\
                                  variables e = Some ["time"; v])
           (series_clients evs).
Proof.
  unfold fetch_loop, bind. simpl.
  apply (for_each_series tag ids
           {| history := history s; client := client s;
              df_list := []; hv_list := [] |}).
Qed.

(** X8.  However the loop ends, each series request it has made was made with
    the server, protocol, constraints and response format the client had when
    the loop began, for one of the identifiers of the list, and for [time]
    and one more variable.  The loop itself sets no time window: on a client
    without constraints every series request is unconstrained. *)
Theorem fetch_loop_requests_keep_configuration tag ids s :
  exists evs,
    history (snd (fetch_loop tag ids s)) = history s ++ evs /\
    Forall (fun e => same_configuration e (client s) /\
                     exists id v, In id ids /\ dataset_id e = Some id /\
                                  variables e = Some ["time"; v])
           (series_clients evs) /\
    (constraints (client s) = None ->
     Forall (fun e => constraints e = None) (series_clients evs)).
Proof.
  destruct (fetch_loop_series tag ids s) as (evs & H & F).
  exists evs. split; [exact H|]. split; [exact F|].
  intros Hn. eapply Forall_impl; [|exact F].
  intros e ((_ & _ & Hc & _) & _). congruence.
Qed.

(** What an iteration prints and what it adds to [df_list] go together. *)
Lemma loop_body_kept tag id s :
  exists evs,
    history (snd (loop_body tag id s)) = history s ++ evs /\
    (df_list (snd (loop_body tag id s)) = df_list s /\ printed evs = [] \/
     exists ds, fetched_for id ds /\
                df_list (snd (loop_body tag id s)) = df_list s ++ [ds] /\
                printed evs = [id]).
Proof.
  destruct (match_list tag id s) as [[|v rest]|e] eqn:Hm.
  - rewrite (loop_body_no_match tag id s Hm). eexists. split; [reflexivity|].
    left. split; reflexivity.
  - destruct (series tag id v s) as [ds|e] eqn:Hs.
    + rewrite (loop_body_fetch_plots tag id s v rest ds Hm Hs).
      eexists. split; [reflexivity|]. right. exists ds. simpl.
      split; [|split; reflexivity].
      do 2 eexists. split; [|exact Hs]. reflexivity.
    + rewrite (loop_body_fetch_raises tag id s v rest e Hm Hs).
      eexists. split; [reflexivity|]. left. split; reflexivity.
  - rewrite (loop_body_info_raises tag id s e Hm). eexists. split; [reflexivity|].
    left. split; reflexivity.
Qed.

Lemma for_each_kept tag ids : forall s,
  exists mask evs dd,
    length mask = length ids /\
    history (snd (for_each ids (loop_body tag) s)) = history s ++ evs /\
    df_list (snd (for_each ids (loop_body tag) s)) = df_list s ++ dd /\
    printed evs = keep mask ids /\
    Forall2 fetched_for (keep mask ids) dd.
Proof.
  induction ids as [|id ids IH]; intros s.
  - exists [], [], []. simpl. rewrite !app_nil_r. auto.
  - simpl for_each. unfold bind.
    destruct (loop_body_kept tag id s) as (evs1 & H1 & K).
    destruct (loop_body tag id s) as [[[]|e] s1]; simpl in *.
    + destruct (IH s1) as (mask & evs2 & dd & Hl & H2 & D2 & P2 & F2).
      destruct K as [[D1 P1]|(ds & Hf & D1 & P1)].
      * exists (false :: mask), (evs1 ++ evs2), dd. simpl.
        rewrite H2, H1, D2, D1, printed_app, P1, P2, <- app_assoc.
        repeat split; auto.
      * exists (true :: mask), (evs1 ++ evs2), (ds :: dd). simpl.
        rewrite H2, H1, D2, D1, printed_app, P1, P2, <- !app_assoc.
        repeat split; auto.
    + destruct K as [[D1 P1]|(ds & Hf & D1 & P1)].
      * exists (false :: repeat false (length ids)), evs1, []. simpl.
        rewrite repeat_length, keep_none, app_nil_r. repeat split; auto.
      * exists (true :: repeat false (length ids)), evs1, [ds]. simpl.
        rewrite repeat_length, keep_none. repeat split; auto.
Qed.

(** X9.  However the loop ends, the identifiers it has printed are exactly,
    and in order, those whose dataset it has appended to [df_list]: entry [n]
    of [df_list] was fetched for the [n]-th line printed, the lines printed
    are a selection of the identifiers in their order, and nothing is printed
    for a dataset that is passed over or that stops the loop. *)
Theorem fetch_loop_prints_what_it_keeps tag ids s :
  exists evs mask,
    history (snd (fetch_loop tag ids s)) = history s ++ evs /\
    length mask = length ids /\
    printed evs = keep mask ids /\
    Forall2 fetched_for (printed evs) (df_list (snd (fetch_loop tag ids s))).
Proof.
  unfold fetch_loop, bind. simpl.
  destruct (for_each_kept tag ids
              {| history := history s; client := client s;
                 df_list := []; hv_list := [] |})
    as (mask & evs & dd & Hl & H & D & P & F).
  exists evs, mask. simpl in *. rewrite D, P. auto.
Qed.

(** An iteration raises only what the resolution of its variable raises. *)
Lemma loop_body_raises_only tag id s e s' :
  loop_body tag id s = (Raise e, s') ->
  match_list tag id s = Raise e \/
  match_list tag id s = Return [] /\ e = IndexError.
Proof.
  intros H. destruct (match_list tag id s) as [[|v rest]|e0] eqn:Hm.
  - rewrite (loop_body_no_match tag id s Hm) in H. inversion H. auto.
  - destruct (series tag id v s) as [ds|e1] eqn:Hs.
    + rewrite (loop_body_fetch_plots tag id s v rest ds Hm Hs) in H. discriminate.
    + rewrite (loop_body_fetch_raises tag id s v rest e1 Hm Hs) in H. discriminate.
  - rewrite (loop_body_info_raises tag id s e0 Hm) in H. inversion H. auto.
Qed.

Lemma for_each_raises_only tag ids : forall s e s',
  for_each ids (loop_body tag) s = (Raise e, s') ->
  exists id t,
    In id ids /\
    (match_list tag id t = Raise e \/
     match_list tag id t = Return [] /\ e = IndexError).
Proof.
  induction ids as [|id ids IH]; intros s e s' H; simpl in H.
  - discriminate.
  - unfold bind in H. destruct (loop_body tag id s) as [[[]|e0] s1] eqn:E1.
    + destruct (IH s1 e s' H) as (id' & t & Hin & Hm).
      exists id', t. split; [right; exact Hin|exact Hm].
    + inversion H; subst e0 s1. exists id, s. split; [left; reflexivity|].
      apply (loop_body_raises_only tag id s e s' E1).
Qed.

(** X15.  The only exceptions that leave the loop come from the resolution of
    a variable: the exception the metadata request of one of the datasets
    raised, or IndexError for a dataset with an empty match list.  An
    exception of the download, of the selection of the variable or of the
    plot never leaves the loop. *)
Theorem fetch_loop_raises_only_from_resolution tag ids s e :
  fst (fetch_loop tag ids s) = Raise e ->
  exists id h c,
    In id ids /\ dataset_id c = Some id /\
    (get_var_by_attr h c id tag = Raise e \/
     get_var_by_attr h c id tag = Return [] /\ e = IndexError).
Proof.
  unfold fetch_loop, bind. simpl. intros H.
  destruct (for_each ids (loop_body tag) _) as [r s'] eqn:E. simpl in H. subst r.
  destruct (for_each_raises_only tag ids _ e s' E) as (id & t & Hin & Hm).
  exists id, (history t), (pointed id t). split; [exact Hin|].
  split; [reflexivity|exact Hm].
Qed.

(* ------------------------------------------------------------------ *)
(** *** The time window of the series requests *)

Lemma quiet_ret {A} (a : A) : quiet (ret a).
Proof. intros s. exists []. simpl. rewrite app_nil_r. auto. Qed.

Lemma quiet_lift {A} (o : outcome A) : quiet (lift o).
Proof. intros s. exists []. simpl. rewrite app_nil_r. auto. Qed.

Lemma quiet_get_client : quiet get_client.
Proof. intros s. exists []. simpl. rewrite app_nil_r. auto. Qed.

Lemma quiet_print l : quiet (print l).
Proof. intros s. exists [EvPrint l]. simpl. auto. Qed.

Lemma quiet_urlopen url : quiet (call_urlopen url).
Proof. intros s. exists [EvUrlopen url]. simpl. auto. Qed.

Lemma quiet_get_var_by_attr id tag : quiet (call_get_var_by_attr id tag).
Proof. intros s. exists [EvInfo (client s) id tag]. simpl. auto. Qed.

Lemma quiet_bind {A B} (m : M A) (k : A -> M B) :
  quiet m -> (forall a, quiet (k a)) -> quiet (bind m k).
Proof.
  intros Hm Hk s. unfold bind. destruct (Hm s) as (evs1 & H1 & S1 & C1).
  destruct (m s) as [[a|e] s1]; simpl in *.
  - destruct (Hk a s1) as (evs2 & H2 & S2 & C2).
    exists (evs1 ++ evs2). rewrite H2, H1, C2, C1, series_clients_app, S1, S2.
    rewrite app_assoc. auto.
  - exists evs1. auto.
Qed.

Ltac quiet :=
  repeat first
    [ apply quiet_bind; [|intro]
    | apply quiet_ret | apply quiet_lift | apply quiet_print
    | apply quiet_get_client | apply quiet_urlopen
    | apply quiet_get_var_by_attr ].

Lemma quiet_count_all : quiet count_all.
Proof. unfold count_all. quiet. Qed.

Lemma quiet_search k : quiet (search k).
Proof. unfold search. quiet. Qed.

Lemma quiet_select_ctdbp df : quiet (select_ctdbp df).
Proof. unfold select_ctdbp. quiet. Qed.

Lemma quiet_alllonlat e c t0 t1 : quiet (alllonlat e c t0 t1).
Proof. unfold alllonlat. quiet. Qed.

Lemma quiet_stations a b : quiet (stations a b).
Proof. unfold stations. quiet. Qed.

Lemma windows_quiet t0 t1 (P : ERDDAP -> Prop) {A} (m : M A) :
  quiet m -> windows t0 t1 P P m.
Proof.
  intros Hq s Hp. destruct (Hq s) as (evs & H & S & C).
  exists evs. rewrite S, C. split; [exact H|]. split; [constructor|auto].
Qed.

Lemma windows_bind t0 t1 (P Q R : ERDDAP -> Prop) {A B} (m : M A) (k : A -> M B) :
  windows t0 t1 P Q m -> (forall a, windows t0 t1 Q R (k a)) ->
  windows t0 t1 P R (bind m k).
Proof.
  intros Hm Hk s Hp. unfold bind. destruct (Hm s Hp) as (evs1 & H1 & F1 & Q1).
  destruct (m s) as [[a|e] s1]; simpl in *.
  - destruct (Hk a s1 (Q1 eq_refl)) as (evs2 & H2 & F2 & R2).
    exists (evs1 ++ evs2). rewrite H2, H1, series_clients_app, app_assoc.
    split; [reflexivity|]. split; [apply Forall_app; auto|exact R2].
  - exists evs1. split; [exact H1|]. split; [exact F1|discriminate].
Qed.

Lemma windows_set_client t0 t1 (P Q : ERDDAP -> Prop) f :
  (forall e, P e -> Q (f e)) -> windows t0 t1 P Q (set_client f).
Proof.
  intros H s Hp. exists []. simpl. rewrite app_nil_r.
  split; [reflexivity|]. split; [constructor|auto].
Qed.

Lemma windows_to_xarray t0 t1 :
  windows t0 t1 (windowed t0 t1) (windowed t0 t1) call_to_xarray.
Proof.
  intros s Hp. exists [EvData (client s)]. simpl.
  split; [reflexivity|]. split; [constructor; [exact Hp|constructor]|auto].
Qed.

Lemma windowed_with_variables t0 t1 vs e :
  windowed t0 t1 e -> windowed t0 t1 (with_variables vs e).
Proof. intros H. exact H. Qed.

Lemma windowed_same_configuration t0 t1 a b :
  same_configuration a b -> windowed t0 t1 b -> windowed t0 t1 a.
Proof.
  unfold same_configuration, windowed. intros (_ & _ & Hc & Hr) [H1 H2].
  split; congruence.
Qed.

Lemma windows_resolve_variables t0 t1 id tag :
  windows t0 t1 (windowed t0 t1) (windowed t0 t1) (resolve_variables id tag).
Proof.
  unfold resolve_variables.
  apply windows_bind with (Q := windowed t0 t1);
    [apply windows_quiet; quiet|intro].
  apply windows_bind with (Q := windowed t0 t1);
    [apply windows_quiet; quiet|intro].
  apply windows_set_client. intros e. apply windowed_with_variables.
Qed.

(** The manual cell opens the window whatever the client was. *)
Lemma windows_read_one id tag t0 t1 :
  windows t0 t1 (fun _ => True) (windowed t0 t1) (read_one id tag t0 t1).
Proof.
  unfold read_one.
  apply windows_bind with (Q := fun _ => True);
    [apply windows_set_client; auto|intro].
  apply windows_bind with (Q := fun e => constraints e = Some (window t0 t1));
    [apply windows_set_client; intros; reflexivity|intro].
  apply windows_bind with (Q := windowed t0 t1);
    [apply windows_set_client; intros e H; split; [exact H|reflexivity]|intro].
  apply windows_bind with (Q := windowed t0 t1);
    [apply windows_resolve_variables|intro].
  apply windows_bind with (Q := windowed t0 t1);
    [apply windows_quiet; quiet|intro].
  apply windows_bind with (Q := windowed t0 t1);
    [apply windows_quiet; quiet|intro].
  apply windows_to_xarray.
Qed.

(** The loop keeps the window it finds. *)
Lemma windows_fetch_loop t0 t1 tag ids :
  windows t0 t1 (windowed t0 t1) (windowed t0 t1) (fetch_loop tag ids).
Proof.
  intros s Hp. destruct (fetch_loop_series tag ids s) as (evs & H & F).
  exists evs. split; [exact H|]. split.
  - eapply Forall_impl; [|exact F]. intros e [Hc _].
    eapply windowed_same_configuration; eassumption.
  - intros _. apply windowed_same_configuration with (b := client s); [|exact Hp].
    unfold fetch_loop, bind. simpl.
    apply (for_each_invariant
             (fun t => same_configuration (client t) (client s))).
    + intros id t _ Ht.
      eapply same_configuration_trans; [apply loop_body_frame|exact Ht].
    + repeat split.
Qed.

Lemma windows_notebook_ooi :
  windows min_time max_time (fun _ => True) (windowed min_time max_time)
          notebook_ooi.
Proof.
  unfold notebook_ooi.
  apply windows_bind with (Q := fun _ => True);
    [apply windows_quiet; apply quiet_count_all|intro].
  apply windows_bind with (Q := fun _ => True);
    [apply windows_quiet; apply quiet_search|intro search_df].
  apply windows_bind with (Q := windowed min_time max_time);
    [apply windows_read_one|intro].
  apply windows_bind with (Q := windowed min_time max_time);
    [apply windows_quiet; apply quiet_select_ctdbp|intro ctdbp].
  apply windows_bind with (Q := windowed min_time max_time);
    [apply windows_quiet; apply quiet_get_client|intro e].
  apply windows_bind with (Q := windowed min_time max_time);
    [apply windows_quiet; apply quiet_alllonlat|intro dfll].
  apply windows_bind with (Q := windowed min_time max_time);
    [apply windows_quiet; apply quiet_stations|intro].
  apply windows_bind with (Q := windowed min_time max_time);
    [apply windows_quiet; apply quiet_lift|intro ids].
  apply windows_fetch_loop.
Qed.

Lemma windows_notebook_ioos :
  windows min_time max_time (fun _ => True) (windowed min_time max_time)
          notebook_ioos.
Proof.
  unfold notebook_ioos.
  apply windows_bind with (Q := fun _ => True);
    [apply windows_quiet; apply quiet_search|intro search_df].
  apply windows_bind
    with (Q := fun e => constraints e = Some (window min_time max_time));
    [apply windows_set_client; intros; reflexivity|intro].
  apply windows_bind with (Q := windowed min_time max_time);
    [apply windows_set_client; intros e H; split; [exact H|reflexivity]|intro].
  apply windows_bind with (Q := windowed min_time max_time);
    [apply windows_quiet; apply quiet_lift|intro ids].
  apply windows_bind with (Q := windowed min_time max_time);
    [apply windows_fetch_loop|intro].
  apply windows_quiet. quiet.
Qed.

(** X10.  In either half of the notebook, however the run ends, every series
    request that has been made (the one of the manual cell and those of the
    loop in the OOI half, those of the loop in the IOOS half) asked for the
    window from [min_time] to [max_time], both bounds included, in CSV.  In
    the OOI half the loop has the window from the manual cell, which ran
    before it. *)
Theorem series_requests_ask_for_the_window :
  (forall s, exists evs,
     history (snd (notebook_ooi s)) = history s ++ evs /\
     Forall (fun e => constraints e
                        = Some [("time>=", "2018-07-01T00:00:00Z");
                                ("time<=", "2018-07-15T00:00:00Z")] /\
                      response e = "csv")
            (series_clients evs)) /\
  (forall s, exists evs,
     history (snd (notebook_ioos s)) = history s ++ evs /\
     Forall (fun e => constraints e
                        = Some [("time>=", "2018-07-01T00:00:00Z");
                                ("time<=", "2018-07-15T00:00:00Z")] /\
                      response e = "csv")
            (series_clients evs)).
Proof.
  split; intros s.
  - destruct (windows_notebook_ooi s I) as (evs & H & F & _). exists evs. auto.
  - destruct (windows_notebook_ioos s I) as (evs & H & F & _). exists evs. auto.
Qed.

(* ------------------------------------------------------------------ *)
(** *** The requests of a complete run *)


Lemma stations_state a b s : snd (stations a b s) = s.
Proof.
  unfold stations, bind, lift.
  destruct (column "datasetID" a); [|reflexivity].
  destruct (column "Dataset ID" b); [|reflexivity].
  destruct (mask_rows _ a); reflexivity.
Qed.



(** A loop that comes to its end has made the whole of its plan, and left
    the server of the client alone. *)
Lemma fetch_loop_returns_plan tag ids s s' :
  fetch_loop tag ids s = (Return tt, s') ->
  requests (history s') = requests (history s) ++ plan ids /\
  server (client s') = server (client s).
Proof.
  intros H. split.
  - unfold fetch_loop, bind in H. simpl in H.
    destruct (for_each_requests tag ids
                {| history := history s; client := client s;
                   df_list := []; hv_list := [] |})
      as (r & t & evs & rest & E & Hh & P & N).
    rewrite H in E. inversion E; subst r t. simpl in Hh.
    rewrite Hh, requests_app, P, (N eq_refl), app_nil_r. reflexivity.
  - assert (E : s' = snd (fetch_loop tag ids s)) by (rewrite H; reflexivity).
    rewrite E. unfold fetch_loop, bind. simpl.
    apply (for_each_invariant (fun t => server (client t) = server (client s))).
    + intros id t _ Ht. destruct (loop_body_frame tag id t) as [Hs _]. congruence.
    + reflexivity.
Qed.


(** X12.  A run of the IOOS half that comes to its end has made, in this
    order: the search, then for every identifier of the search table, in the
    order of the table, its metadata and its series request, and last the
    allDatasets request. *)
Theorem notebook_ioos_complete_run s s' :
  notebook_ioos s = (Return tt, s') ->
  exists search_df col,
    fst (search kw s) = Return search_df /\
    column "Dataset ID" search_df = Return col /\
    requests (history s') =
      requests (history s) ++
      [ Open (search_url (client s) kw) ] ++
      plan (values col) ++
      [ Open (all_datasets_query (server (client s)) "TimeSeries" max_time min_time) ].
Proof.
  intros H. unfold notebook_ioos in H.
  unfold bind in H at 1.
  pose proof (search_spec kw s) as E1.
  destruct (search kw s) as [[search_df|e] s1]; [|discriminate].
  inversion E1 as [[Er Es1]]. clear E1.
  unfold bind in H at 1. unfold set_client in H at 1.
  unfold bind in H at 1. unfold set_client in H at 1.
  unfold bind in H at 1. unfold lift in H at 1.
  destruct (column "Dataset ID" search_df) as [col|e] eqn:E2; [|discriminate].
  unfold bind in H at 1.
  match type of H with
  | context [fetch_loop ?t ?i ?st] =>
      destruct (fetch_loop t i st) as [[[]|e] s4] eqn:E3; [|discriminate];
      apply fetch_loop_returns_plan in E3 as [Hreq Hserver]
  end.
  unfold bind in H at 1. unfold get_client in H at 1.
  unfold bind in H at 1.
  pose proof (alllonlat_spec (client s4) "TimeSeries" min_time max_time s4) as E4.
  destruct (alllonlat _ _ _ _ s4) as [[dfll|e] s5]; [|discriminate].
  cbv zeta in E4. inversion E4 as [[Ea Es5]]. clear E4.
  unfold bind in H at 1.
  pose proof (stations_state dfll search_df s5) as E5.
  destruct (stations dfll search_df s5) as [[dfr|e] s6]; [|discriminate].
  simpl in E5. subst s6. unfold ret in H. inversion H; subst s'.
  exists search_df, col.
  split; [reflexivity|]. split; [exact E2|].
  subst s1. simpl in Hreq, Hserver.
  rewrite Es5. simpl. rewrite !requests_app. simpl.
  rewrite Hreq, Hserver, !requests_app. simpl.
  rewrite <- !app_assoc. reflexivity.
Qed.

End Cells.

(* ------------------------------------------------------------------ *)
(** *** The further properties on the stand-ins *)

(** X1 on a dataset with two salinity variables. *)
Lemma read_one_two_matches :
  requests (history (snd (@read_one world_two_matches "A" standard_name
                            min_time max_time (initial ooi0))))
    = [Metadata "A"; Series (Some "A")] /\
  variables (client (snd (@read_one world_two_matches "A" standard_name
                            min_time max_time (initial ooi0))))
    = Some ["time"; "sea_water_practical_salinity"] /\
  constraints (client (snd (@read_one world_two_matches "A" standard_name
                              min_time max_time (initial ooi0))))
    = Some [("time>=", min_time); ("time<=", max_time)].
Proof.
  destruct (@read_one_requests_the_window world_two_matches "A" standard_name
              min_time max_time (initial ooi0)
              ["sea_water_practical_salinity"; "sea_water_practical_salinity_qc"]
              "sea_water_practical_salinity" eq_refl eq_refl)
    as (h & c & _ & Hc & _ & Hr & _ & _ & _ & Hv & Hw & _).
  rewrite Hr, Hc, Hv, Hw. repeat split.
Defined.

(** X2 on a dataset without a salinity variable. *)
Lemma read_one_no_match :
  fst (@read_one world_B_unresolved "B" standard_name min_time max_time
         (initial ooi0)) = Raise IndexError /\
  requests (history (snd (@read_one world_B_unresolved "B" standard_name
                            min_time max_time (initial ooi0))))
    = [Metadata "B"] /\
  response (client (snd (@read_one world_B_unresolved "B" standard_name
                           min_time max_time (initial ooi0)))) = "csv" /\
  variables (client (snd (@read_one world_B_unresolved "B" standard_name
                            min_time max_time (initial ooi0)))) = None.
Proof.
  destruct (@read_one_unresolved_leaves_client_half_set world_B_unresolved "B"
              standard_name min_time max_time (initial ooi0) IndexError
              (or_intror (conj eq_refl eq_refl)))
    as (Hf & Hr & _ & _ & _ & Hp & Hv).
  rewrite Hf, Hr, Hp, Hv. repeat split.
Defined.

(** X3 on the search table of the stand-in server: two of its three
    identifiers contain "ctdbp". *)
Lemma select_ctdbp_on_search_table :
  exists ctdbp,
    @select_ctdbp world_online Mock.search_table (initial ooi0)
      = (Return ctdbp, @log world_online (EvPrint "2") (initial ooi0)) /\
    column "Dataset ID" ctdbp
      = Return [CStr "ooi-ce01issm-sbd17-06-ctdbpc000";
                CStr "ooi-ce06issm-sbd17-06-ctdbpc000"] /\
    len ctdbp = 2 /\
    index ctdbp = seq 0 (len ctdbp) /\
    well_formed ctdbp.
Proof.
  apply (@select_ctdbp_keeps_matching world_online Mock.search_table (initial ooi0)
           [CStr "ooi-ce01issm-sbd17-06-ctdbpc000";
            CStr "ooi-ce02shsm-sbd11-06-metbka000";
            CStr "ooi-ce06issm-sbd17-06-ctdbpc000"]);
    reflexivity.
Defined.

(** X4 on a table whose identifiers are numbers: the string methods are
    refused before any mask is made. *)
Lemma select_ctdbp_on_numbered_table :
  @select_ctdbp world_online numbered_table (initial ooi0)
    = (Raise (AttributeError "Can only use .str accessor with string values!"),
       initial ooi0).
Proof.
  apply (proj1 (proj2 (@select_ctdbp_fails_on_bad_table world_online
                         numbered_table (initial ooi0)))
           [CInt 101; CInt 102] (CInt 101)).
  - reflexivity.
  - left. reflexivity.
  - reflexivity.
Defined.

(** X5 on the allDatasets table and the search table of the stand-in server:
    the units line is dropped, the two stations stay. *)
Lemma stations_on_lonlat_table :
  exists dfr,
    @stations world_online Mock.lonlat_table Mock.search_table (initial ooi0)
      = (Return dfr, initial ooi0) /\
    column "datasetID" dfr
      = Return [CStr "ooi-ce01issm-sbd17-06-ctdbpc000";
                CStr "ooi-ce06issm-sbd17-06-ctdbpc000"].
Proof.
  destruct (@stations_keeps_listed world_online Mock.lonlat_table Mock.search_table
              (initial ooi0)
              [CNaN; CStr "ooi-ce01issm-sbd17-06-ctdbpc000";
               CStr "ooi-ce06issm-sbd17-06-ctdbpc000"]
              [CStr "ooi-ce01issm-sbd17-06-ctdbpc000";
               CStr "ooi-ce02shsm-sbd11-06-metbka000";
               CStr "ooi-ce06issm-sbd17-06-ctdbpc000"]
              eq_refl eq_refl eq_refl)
    as (dfr & H & _ & _ & Hc & _).
  exists dfr. split; [exact H|exact Hc].
Defined.

(** X6 on the stand-in server: the [griddap] column of the answer is gone,
    the identifiers are as the server listed them. *)
Lemma search_online_three_columns :
  exists body df,
    @urlopen world_online [] (@search_url world_online ooi0 kw) = Return body /\
    @read_csv world_online body [] = Return df /\
    columns search_result = ["Institution"; "Dataset ID"; "tabledap"] /\
    index search_result = index df /\
    len search_result = len df /\
    Forall (fun r => length r = 3) (rows search_result) /\
    (forall c, In c ["Institution"; "Dataset ID"; "tabledap"] ->
       column c search_result = column c df).
Proof.
  apply (@search_keeps_the_three_columns world_online kw (initial ooi0)
           search_result).
  reflexivity.
Defined.

(** X7 on a server whose answer has no [tabledap] column. *)
Lemma search_short_answer :
  exists c,
    KeyError "tabledap" = KeyError c /\
    In c ["Institution"; "Dataset ID"; "tabledap"] /\
    ~ In c (columns short_table).
Proof.
  apply (proj2 (@search_key_error_on_missing_column world_short_answer kw
                  (initial ooi0) short_table short_table eq_refl eq_refl)
           (KeyError "tabledap")).
  reflexivity.
Defined.


(** X12 on the stand-in server: the search, three datasets, the stations. *)
Lemma ioos_complete_run_online :
  length (requests (history (snd (@notebook_ioos world_online (initial ooi0))))) = 8.
Proof.
  destruct (@notebook_ioos_complete_run world_online (initial ooi0)
              (snd (@notebook_ioos world_online (initial ooi0))))
    as (search_df & col & _ & _ & _).
  - vm_compute. reflexivity.
  - vm_compute. reflexivity.
Defined.

(** X15 on [A, B, C] where B has no salinity variable. *)
Lemma loop_raises_from_resolution_of_B :
  exists id h c,
    In id ["A"; "B"; "C"] /\ dataset_id c = Some id /\
    (@get_var_by_attr world_B_unresolved h c id standard_name = Raise IndexError \/
     @get_var_by_attr world_B_unresolved h c id standard_name = Return [] /\
     IndexError = IndexError).
Proof.
  apply (@fetch_loop_raises_only_from_resolution world_B_unresolved standard_name
           ["A"; "B"; "C"] (initial ooi0) IndexError).
  reflexivity.
Defined.

End ErddapExtras.

(* ================================================================== *)
(** ** Further properties of notebook 06 *)
(* ================================================================== *)

Module BathyExtras.
Import Bathy BathyFacts.
Open Scope float_scope.

(** The masking cell, value by value. *)
Lemma mask_land_and_deep_map na :
  mask_land_and_deep na
    = {| dims := dims na; coords := coords na; shape := shape na;
         data := map masked (data na) |}.
Proof.
  rewrite <- mask_land_and_deep_data. reflexivity.
Qed.

Lemma masked_cases x : masked x = x /\ PrimFloat.ltb x 0 = true /\
                       PrimFloat.ltb (-1000) x = true
                       \/ masked x = nan.
Proof.
  unfold masked.
  destruct (PrimFloat.ltb x 0) eqn:H0.
  - destruct (PrimFloat.ltb (-1000) x) eqn:H1; [left|right]; auto.
  - right. reflexivity.
Qed.

Lemma masked_twice x : masked (masked x) = masked x.
Proof.
  destruct (masked_cases x) as [(E & H0 & H1)|E]; rewrite E.
  - unfold masked. rewrite H0, H1. reflexivity.
  - reflexivity.
Qed.

(** X13.  Running the masking cell again on its own result changes nothing:
    masking an array twice gives the array masked once. *)
Theorem mask_twice_is_mask_once na :
  mask_land_and_deep (mask_land_and_deep na) = mask_land_and_deep na.
Proof.
  rewrite (mask_land_and_deep_map (mask_land_and_deep na)).
  rewrite (mask_land_and_deep_map na). simpl. f_equal.
  rewrite map_map. apply map_ext. apply masked_twice.
Qed.

(** A number that is below another is not NaN. *)
Lemma ltb_not_nan x y : PrimFloat.ltb x y = true -> is_nan x = false.
Proof.
  rewrite ltb_spec. unfold is_nan. rewrite eqb_spec.
  unfold SpecFloat.SFltb, SpecFloat.SFeqb.
  destruct (Prim2SF x) as [sx|sx| |sx mx ex]; simpl.
  - reflexivity.
  - destruct sx; reflexivity.
  - discriminate.
  - intros _. destruct sx; rewrite Z.compare_refl, Pos.compare_cont_refl;
      reflexivity.
Qed.

(** X14.  The mask drops no depth of the range: a value of the array that is
    strictly between -1000 and 0 is still there after the two steps, at the
    same place and unchanged, and it is not the missing value. *)
Theorem mask_keeps_every_value_in_range na i x :
  nth_error (data na) i = Some x ->
  PrimFloat.ltb (-1000) x = true ->
  PrimFloat.ltb x 0 = true ->
  nth_error (data (mask_land_and_deep na)) i = Some x /\
  is_nan x = false.
Proof.
  intros Hx H1 H0. rewrite mask_land_and_deep_data, nth_error_map, Hx. simpl.
  split.
  - unfold masked. rewrite H0, H1. reflexivity.
  - apply (ltb_not_nan x 0 H0).
Qed.

(** X14 on a strip of sea floor: the depth of 3.25 m stays. *)
Lemma mask_keeps_shallow_depth :
  nth_error (data (mask_land_and_deep
                     {| dims := ["lon"]; coords := [("lon", [-130; -129; -128])];
                        shape := [3]%nat; data := [12.5; -3.25; -4231] |})) 1
    = Some (-3.25) /\
  is_nan (-3.25) = false.
Proof.
  apply (mask_keeps_every_value_in_range
           {| dims := ["lon"]; coords := [("lon", [-130; -129; -128])];
              shape := [3]%nat; data := [12.5; -3.25; -4231] |} 1 (-3.25));
    reflexivity.
Defined.

End BathyExtras.
